(** * Country / population / threatened-species statistics

    A shallow embedding of [user_csv.py] and [design_project.py]:
    the CSV reader and writer, the three-file merge, and the two
    aggregation functions, together with the Python built-ins they
    call.  Python text is a sequence of code points; this development
    covers the code points below 256, carried by [ascii].  Python
    floats are IEEE binary64 values, carried by [spec_float] with
    53 bits of precision.  An exception is an explicit outcome. *)

From Stdlib Require Import ZArith List String Ascii Bool Lia DecimalString.
From Stdlib Require Import Floats.SpecFloat.
Import ListNotations.
Local Open Scope string_scope.
Local Open Scope Z_scope.

(** ** Exceptions and the outcome of a call *)

Inductive exn : Type :=
| FileNotFoundError
| ValueError
| IndexError
| KeyError
| ZeroDivisionError
| OverflowError.

Inductive result (A : Type) : Type :=
| Ok (a : A)
| Raise (e : exn).
Arguments Ok {A} a.
Arguments Raise {A} e.

Definition bind {A B : Type} (r : result A) (k : A -> result B) : result B :=
  match r with
  | Ok a => k a
  | Raise e => Raise e
  end.

Declare Scope py_scope.
Delimit Scope py_scope with py.
Notation "x <- c ;; k" := (bind c (fun x => k))
  (at level 61, c at next level, right associativity) : py_scope.
Local Open Scope py_scope.

Definition raises {A : Type} (r : result A) : Prop :=
  exists e, r = Raise e.

Definition returns {A : Type} (r : result A) : Prop :=
  exists a, r = Ok a.

(** [list(map(f, xs))] for an [f] that may raise: elements are converted
    from left to right and the first exception is propagated. *)
Fixpoint map_r {A B : Type} (f : A -> result B) (xs : list A) : result (list B) :=
  match xs with
  | [] => Ok []
  | x :: xs' =>
      y <- f x ;;
      ys <- map_r f xs' ;;
      Ok (y :: ys)
  end.

(** ** Python text *)

Module Py.

Definition code (c : ascii) : N := N_of_ascii c.

(** [str.isspace] on one code point below 256: TAB..CR, FS..US, SPACE,
    NEL (U+0085) and NO-BREAK SPACE (U+00A0). *)
Definition isspace (c : ascii) : bool :=
  let n := code c in
  ((9 <=? n) && (n <=? 13) || (28 <=? n) && (n <=? 32)
   || (n =? 133) || (n =? 160))%N.

(** The ASCII decimal digits. *)
Definition is_decimal_digit (c : ascii) : bool :=
  let n := code c in ((48 <=? n) && (n <=? 57))%N.

(** [str.isdigit] on one code point below 256: the ASCII digits and the
    superscript digits U+00B2, U+00B3 and U+00B9. *)
Definition isdigit_char (c : ascii) : bool :=
  let n := code c in
  (is_decimal_digit c || (n =? 178) || (n =? 179) || (n =? 185))%N.

Fixpoint all_chars (p : ascii -> bool) (s : string) : bool :=
  match s with
  | EmptyString => true
  | String c t => p c && all_chars p t
  end.

Definition is_empty (s : string) : bool :=
  match s with
  | EmptyString => true
  | String _ _ => false
  end.

(** [s.isdigit()]: at least one character, and every one a digit. *)
Definition isdigit (s : string) : bool :=
  negb (is_empty s) && all_chars isdigit_char s.

(** Removal of the leading, and of the trailing, characters that
    satisfy [sp]. *)
Fixpoint lstrip_by (sp : ascii -> bool) (s : string) : string :=
  match s with
  | EmptyString => EmptyString
  | String c t => if sp c then lstrip_by sp t else s
  end.

Fixpoint rstrip_by (sp : ascii -> bool) (s : string) : string :=
  match s with
  | EmptyString => EmptyString
  | String c t =>
      let t' := rstrip_by sp t in
      if sp c && is_empty t' then EmptyString else String c t'
  end.

Definition strip_by (sp : ascii -> bool) (s : string) : string :=
  rstrip_by sp (lstrip_by sp s).

(** [s.strip()] *)
Definition strip (s : string) : string := strip_by isspace s.

(** [s.replace(old, '', 1)] for a one-character [old]: the first
    occurrence is removed. *)
Fixpoint remove_first (old : ascii) (s : string) : string :=
  match s with
  | EmptyString => EmptyString
  | String c t => if Ascii.eqb c old then t else String c (remove_first old t)
  end.

(** [s.split(sep)] for a one-character separator. *)
Fixpoint split (sep : ascii) (s : string) : list string :=
  match s with
  | EmptyString => [EmptyString]
  | String c t =>
      if Ascii.eqb c sep then EmptyString :: split sep t
      else match split sep t with
           | [] => [String c EmptyString]
           | f :: fs => String c f :: fs
           end
  end.

(** [sep.join(parts)] *)
Fixpoint join (sep : string) (parts : list string) : string :=
  match parts with
  | [] => EmptyString
  | [p] => p
  | p :: ps => p ++ sep ++ join sep ps
  end.

Definition LF : ascii := ascii_of_N 10.
Definition CR : ascii := ascii_of_N 13.

(** Reading a file opened in text mode translates CR LF and a lone CR
    into LF. *)
Fixpoint universal_newlines (s : string) : string :=
  match s with
  | EmptyString => EmptyString
  | String c t =>
      if Ascii.eqb c CR then
        String LF (match t with
                   | String c' t' =>
                       if Ascii.eqb c' LF then universal_newlines t'
                       else universal_newlines t
                   | EmptyString => EmptyString
                   end)
      else String c (universal_newlines t)
  end.

(** Splitting text into lines, each keeping its LF. *)
Fixpoint split_lines (s : string) : list string :=
  match s with
  | EmptyString => []
  | String c t =>
      if Ascii.eqb c LF then String c EmptyString :: split_lines t
      else match split_lines t with
           | [] => [String c EmptyString]
           | l :: ls => String c l :: ls
           end
  end.

End Py.

(** ** Python floats and integers *)

Module Float.

Definition prec : Z := 53.
Definition emax : Z := 1024.

(** A Python [float]: an IEEE binary64 value. *)
Definition float : Type := spec_float.

Definition zero : float := S754_zero false.
Definition add : float -> float -> float := SFadd prec emax.
Definition sub : float -> float -> float := SFsub prec emax.
Definition div : float -> float -> float := SFdiv prec emax.

(** [x == y] on floats. *)
Definition eqb : float -> float -> bool := SFeqb.

(** The float nearest to an integer, ties to even; an integer beyond the
    range rounds to an infinity. *)
Definition of_Z (z : Z) : float := binary_normalize prec emax z 0 false.

(** The float nearest to [m * 10^e] for [m >= 0], with sign [neg].
    Beyond the two cut-offs the value is already outside the range of
    binary64 and the power of ten is not computed. *)
Definition of_decimal (neg : bool) (m e : Z) : float :=
  if m =? 0 then S754_zero neg
  else if 0 <=? e then
    if 400 <? e then S754_infinity neg
    else binary_normalize prec emax (if neg then - (m * 10 ^ e) else m * 10 ^ e) 0 neg
  else if Z.log2 m + 1101 <? 3 * (- e) then S754_zero neg
  else
    let d := 10 ^ (- e) in
    let s := Z.log2 d + 1100 in
    let n := m * 2 ^ s in
    let q := n / d in
    let r := n mod d in
    let l := if r =? 0 then loc_Exact else loc_Inexact (2 * r ?= d) in
    binary_round_aux prec emax neg q (- s) l.

(** The integer part of a finite float (rounding toward zero). *)
Definition trunc (x : float) : option Z :=
  match x with
  | S754_zero _ => Some 0
  | S754_finite s m e =>
      let v := if 0 <=? e then Z.pos m * 2 ^ e else Z.pos m / 2 ^ (- e) in
      Some (if s then - v else v)
  | S754_infinity _ | S754_nan => None
  end.

Definition is_nan (x : float) : bool :=
  match x with S754_nan => true | _ => false end.

End Float.

Abbreviation float := Float.float.

Module PyNum.
Import Py.

(** The whitespace that [float] and [int] skip around a numeral: TAB..CR
    and SPACE, and the two spaces above 127; unlike [str.strip], not
    FS..US. *)
Definition numeric_space (c : ascii) : bool :=
  let n := code c in
  ((9 <=? n) && (n <=? 13) || (n =? 32) || (n =? 133) || (n =? 160))%N.

Definition strip_numeric (s : string) : string := strip_by numeric_space s.

Definition digit_val (c : ascii) : Z := Z.of_N (code c) - 48.

(** Reads the longest prefix of ASCII digits: the accumulated value, the
    number of digits read, and the rest of the text. *)
Fixpoint read_digits (acc n : Z) (s : string) : Z * Z * string :=
  match s with
  | EmptyString => (acc, n, s)
  | String c t =>
      if is_decimal_digit c then read_digits (10 * acc + digit_val c) (n + 1) t
      else (acc, n, s)
  end.

Definition parse_sign (s : string) : bool * string :=
  match s with
  | String c t =>
      if Ascii.eqb c "-"%char then (true, t)
      else if Ascii.eqb c "+"%char then (false, t)
      else (false, s)
  | EmptyString => (false, s)
  end.

(** Underscores in a numeric literal are accepted between two digits
    only, and dropped. [prev] is the character before [s]. *)
Fixpoint remove_underscores (prev : ascii) (s : string) : option string :=
  match s with
  | EmptyString => if Ascii.eqb prev "_"%char then None else Some EmptyString
  | String c t =>
      if Ascii.eqb c "_"%char then
        if is_decimal_digit prev then remove_underscores c t else None
      else if Ascii.eqb prev "_"%char && negb (is_decimal_digit c) then None
      else option_map (String c) (remove_underscores c t)
  end.

Definition lower_char (c : ascii) : ascii :=
  let n := code c in
  if ((65 <=? n) && (n <=? 90))%N then ascii_of_N (n + 32) else c.

Fixpoint lower (s : string) : string :=
  match s with
  | EmptyString => EmptyString
  | String c t => String (lower_char c) (lower t)
  end.

(** [inf], [infinity] and [nan], in any letter case. *)
Definition parse_special (neg : bool) (s : string) : option float :=
  let l := lower s in
  if String.eqb l "inf" || String.eqb l "infinity" then Some (S754_infinity neg)
  else if String.eqb l "nan" then Some S754_nan
  else None.

(** Digits with an optional point and an optional exponent; at least
    one digit before the exponent, and nothing after the literal. *)
Definition parse_decimal (neg : bool) (s : string) : option float :=
  let '(ip, ni, s1) := read_digits 0 0 s in
  let '(m, nf, s2) :=
    match s1 with
    | String c t => if Ascii.eqb c "."%char then read_digits ip 0 t else (ip, 0, s1)
    | EmptyString => (ip, 0, s1)
    end in
  if ni + nf =? 0 then None
  else match s2 with
       | EmptyString => Some (Float.of_decimal neg m (- nf))
       | String c t =>
           if Ascii.eqb (lower_char c) "e"%char then
             let '(eneg, t1) := parse_sign t in
             let '(ev, ne, t2) := read_digits 0 0 t1 in
             if (ne =? 0) || negb (is_empty t2) then None
             else Some (Float.of_decimal neg m ((if eneg then - ev else ev) - nf))
           else None
       end.

(** [float(s)] for a string [s]. *)
Definition float_of_str (s : string) : result float :=
  match remove_underscores zero (strip_numeric s) with
  | None => Raise ValueError
  | Some s1 =>
      let '(neg, s2) := parse_sign s1 in
      match parse_special neg s2 with
      | Some x => Ok x
      | None =>
          match parse_decimal neg s2 with
          | Some x => Ok x
          | None => Raise ValueError
          end
      end
  end.

(** [int(s)] for a string [s], in base ten. *)
Definition int_of_str (s : string) : result Z :=
  let '(neg, s1) := parse_sign (strip_numeric s) in
  match remove_underscores zero s1 with
  | None => Raise ValueError
  | Some s2 =>
      let '(v, n, rest) := read_digits 0 0 s2 in
      if (n =? 0) || negb (is_empty rest) then Raise ValueError
      else Ok (if neg then - v else v)
  end.

(** [int(x)] for a float [x]. *)
Definition int_of_float (x : float) : result Z :=
  match Float.trunc x with
  | Some z => Ok z
  | None => Raise (if Float.is_nan x then ValueError else OverflowError)
  end.

(** The conversion of an [int] operand of a float operation. *)
Definition float_of_int (z : Z) : result float :=
  match Float.of_Z z with
  | S754_infinity _ => Raise OverflowError
  | x => Ok x
  end.

(** [a / b] on floats. *)
Definition truediv (a b : float) : result float :=
  if Float.eqb b Float.zero then Raise ZeroDivisionError else Ok (Float.div a b).

(** [sum(xs)] on a list of integers. *)
Definition sum (xs : list Z) : Z := fold_left Z.add xs 0.

(** Floating-point accumulation of a list, starting from its first
    element.  numpy adds the elements of an array in an order of its
    own; the sum is taken here from the left, which gives the same
    float whenever the additions are exact. *)
Definition fsum (xs : list float) : float :=
  match xs with
  | [] => Float.zero
  | x :: rest => fold_left Float.add rest x
  end.

(** [numpy.mean] of a list of floats: the accumulated sum divided by the
    number of elements (NaN for the empty list). *)
Definition np_mean (xs : list float) : float :=
  Float.div (fsum xs) (Float.of_Z (Z.of_nat (List.length xs))).

(** [numpy.mean] of a list of integers (within the range of a 64-bit
    integer): the elements are taken to binary64 first. *)
Definition np_mean_int (xs : list Z) : float := np_mean (map Float.of_Z xs).

(** *** Printing a float

    [str(x)] is the shortest decimal numeral that reads back as [x],
    the nearest to [x] among the shortest; it is laid out without an
    exponent when the decimal point falls within the first sixteen
    places or at most four places before the first digit. *)

(** [m * 2^e >= 10^k] *)
Definition ge_pow10 (m e k : Z) : bool :=
  10 ^ Z.max k 0 * 2 ^ Z.max (- e) 0 <=? m * 2 ^ Z.max e 0 * 10 ^ Z.max (- k) 0.

(** The [k] with [10^k <= m * 2^e < 10^(k+1)], for [m > 0]. *)
Definition floor_log10 (m e : Z) : Z :=
  let k0 := (Z.log2 m + e) * 30103 / 100000 in
  if ge_pow10 m e (k0 + 1) then k0 + 1
  else if ge_pow10 m e k0 then k0 else k0 - 1.

(** The two [p]-digit numerals around [m * 2^e], the nearer one first,
    each given as an integer and the power of ten of its last digit. *)
Definition candidates (m e k p : Z) : list (Z * Z) :=
  let t := p - 1 - k in
  let num := m * 2 ^ Z.max e 0 * 10 ^ Z.max t 0 in
  let den := 2 ^ Z.max (- e) 0 * 10 ^ Z.max (- t) 0 in
  let lo := num / den in
  let r := num mod den in
  let hi := lo + 1 in
  match 2 * r ?= den with
  | Lt => [(lo, - t); (hi, - t)]
  | Gt => [(hi, - t); (lo, - t)]
  | Eq => if Z.even lo then [(lo, - t); (hi, - t)] else [(hi, - t); (lo, - t)]
  end.

Definition reads_back (x : float) (c : Z * Z) : bool :=
  match x, Float.of_decimal false (fst c) (snd c) with
  | S754_finite _ m e, S754_finite _ m' e' => Pos.eqb m m' && (e =? e')
  | _, _ => false
  end.

Fixpoint shortest (fuel : nat) (x : float) (m e k p : Z) : Z * Z :=
  let cs := candidates m e k p in
  match fuel with
  | O => hd (0, 0) cs
  | S fuel' =>
      match find (reads_back x) cs with
      | Some c => c
      | None => shortest fuel' x m e k (p + 1)
      end
  end.

(** Trailing zeros of the numeral move into the exponent. *)
Fixpoint drop_zeros (fuel : nat) (n t : Z) : Z * Z :=
  match fuel with
  | O => (n, t)
  | S fuel' => if (n mod 10 =? 0) && negb (n =? 0) then drop_zeros fuel' (n / 10) (t + 1) else (n, t)
  end.

Definition digits_of (n : Z) : string := NilZero.string_of_uint (N.to_uint (Z.to_N n)).

Fixpoint zeros (n : nat) : string :=
  match n with
  | O => EmptyString
  | S n' => String "0"%char (zeros n')
  end.

(** The layout of the digits [ds] with the decimal point [decpt] places
    after the start of [ds]. *)
Definition layout (ds : string) (decpt : Z) : string :=
  let n := Z.of_nat (String.length ds) in
  if (decpt <=? -4) || (16 <? decpt) then
    let ex := decpt - 1 in
    let mant :=
      match ds with
      | String d EmptyString => ds
      | String d rest => String d (String "."%char rest)
      | EmptyString => ds
      end in
    let exd := digits_of (Z.abs ex) in
    mant ++ "e" ++ (if ex <? 0 then "-" else "+")
         ++ (if Z.abs ex <? 10 then "0" else "") ++ exd
  else if decpt <=? 0 then "0." ++ zeros (Z.to_nat (- decpt)) ++ ds
  else if decpt <? n then
    substring 0 (Z.to_nat decpt) ds ++ "."
              ++ substring (Z.to_nat decpt) (Z.to_nat (n - decpt)) ds
  else ds ++ zeros (Z.to_nat (decpt - n)) ++ ".0".

(** [str(x)] for a float [x]. *)
Definition str_of_float (x : float) : string :=
  match x with
  | S754_nan => "nan"
  | S754_infinity s => if s then "-inf" else "inf"
  | S754_zero s => if s then "-0.0" else "0.0"
  | S754_finite s m e =>
      let k := floor_log10 (Z.pos m) e in
      let '(n0, t0) := shortest 17 x (Z.pos m) e k 1 in
      let '(n, t) := drop_zeros 20 n0 t0 in
      let ds := digits_of n in
      (if s then "-" else "") ++ layout ds (Z.of_nat (String.length ds) + t)
  end.

End PyNum.

(** ** Fields, rows and insertion-ordered dictionaries *)

(** A parsed field: a string, or a float. *)
Inductive field : Type :=
| Str (s : string)
| Num (x : float).

Definition row : Type := list field.

(** [a == b] on fields; a string never equals a float. *)
Definition field_eqb (a b : field) : bool :=
  match a, b with
  | Str s, Str t => String.eqb s t
  | Num x, Num y => Float.eqb x y
  | _, _ => false
  end.

(** [float(f)] *)
Definition py_float (f : field) : result float :=
  match f with
  | Str s => PyNum.float_of_str s
  | Num x => Ok x
  end.

(** [int(f)] *)
Definition py_int (f : field) : result Z :=
  match f with
  | Str s => PyNum.int_of_str s
  | Num x => PyNum.int_of_float x
  end.

(** [str(f)] *)
Definition py_str (f : field) : string :=
  match f with
  | Str s => s
  | Num x => PyNum.str_of_float x
  end.

(** [l[i]] for [i >= 0] *)
Definition index {A : Type} (l : list A) (i : nat) : result A :=
  match nth_error l i with
  | Some a => Ok a
  | None => Raise IndexError
  end.

(** [l[-1]] *)
Definition index_last {A : Type} (l : list A) : result A :=
  match rev l with
  | a :: _ => Ok a
  | [] => Raise IndexError
  end.

(** A [dict] keyed by fields: the entries in insertion order, no two
    keys equal under [==].  Keys are compared with [==]; a NaN, which
    equals nothing, is never produced by the reader. *)
Definition dict (V : Type) : Type := list (field * V).

Fixpoint dict_get {V : Type} (k : field) (d : dict V) : option V :=
  match d with
  | [] => None
  | (k', v) :: d' => if field_eqb k' k then Some v else dict_get k d'
  end.

(** [k in d] *)
Definition dict_mem {V : Type} (k : field) (d : dict V) : bool :=
  match dict_get k d with
  | Some _ => true
  | None => false
  end.

(** [d[k] = v]: an existing key keeps its place and takes the new
    value, a new key goes last. *)
Fixpoint dict_set {V : Type} (k : field) (v : V) (d : dict V) : dict V :=
  match d with
  | [] => [(k, v)]
  | (k', v') :: d' =>
      if field_eqb k' k then (k', v) :: d' else (k', v') :: dict_set k v d'
  end.

(** [d[k]] *)
Definition lookup {V : Type} (d : dict V) (k : field) : result V :=
  match dict_get k d with
  | Some v => Ok v
  | None => Raise KeyError
  end.

Definition keys {V : Type} (d : dict V) : list field := map fst d.

(** ** user_csv.py *)

(** The files that exist, by name, with their text. *)
Definition filesystem : Type := string -> option string.

Definition fs_write (fs : filesystem) (name text : string) : filesystem :=
  fun n => if String.eqb n name then Some text else fs n.

Definition comma : ascii := ","%char.
Definition dot : ascii := "."%char.

(** One element of the row comprehension of [read_csv]:
    [float(value) if value.strip().replace('.', '', 1).isdigit()
     else value.strip()]. *)
Definition parse_field (value : string) : result field :=
  if Py.isdigit (Py.remove_first dot (Py.strip value)) then
    x <- PyNum.float_of_str value ;; Ok (Num x)
  else Ok (Str (Py.strip value)).

Definition parse_line (line : string) : result row :=
  map_r parse_field (Py.split comma line).

(** The loop of [read_csv] from line number [i] on. *)
Fixpoint read_lines (include_headers : bool) (i : nat) (lines : list string)
  : result (list row) :=
  match lines with
  | [] => Ok []
  | line :: rest =>
      r <- parse_line line ;;
      data <- read_lines include_headers (S i) rest ;;
      Ok (if Nat.eqb i 0 && negb include_headers then data else r :: data)
  end.

Definition read_csv (fs : filesystem) (filename : string) (include_headers : bool)
  : result (list row) :=
  match fs filename with
  | None => Raise FileNotFoundError
  | Some text =>
      read_lines include_headers 0 (Py.split_lines (Py.universal_newlines text))
  end.

Definition newline : string := String Py.LF EmptyString.

Definition format_row (r : row) : string :=
  Py.join "," (map py_str r) ++ newline.

(** The loop of [write_csv]: the lines written, one after the other. *)
Fixpoint write_rows (data : list row) : string :=
  match data with
  | [] => EmptyString
  | r :: rest => format_row r ++ write_rows rest
  end.

(** The file is opened in mode ['w'] when [overwrite] holds (its old
    text is dropped) and in mode ['a'] otherwise (the lines are added
    after the old text, if any). *)
Definition write_csv (fs : filesystem) (filename : string) (data : list row)
  (overwrite : bool) : filesystem :=
  let old :=
    if overwrite then EmptyString
    else match fs filename with
         | Some t => t
         | None => EmptyString
         end in
  fs_write fs filename (old ++ write_rows data).

(** ** design_project.py *)

Record CountryRecord : Type := {
  region : field;
  sub_region : field;
  area : float;
  population : list float;
  species : list Z
}.

(** [{row[0]: row[1:] for row in rows}], continued from [d]. *)
Fixpoint rows_to_dict_from (d : dict (list field)) (rows : list row)
  : result (dict (list field)) :=
  match rows with
  | [] => Ok d
  | r :: rest =>
      match r with
      | [] => Raise IndexError
      | k :: fields => rows_to_dict_from (dict_set k fields d) rest
      end
  end.

Definition rows_to_dict (rows : list row) : result (dict (list field)) :=
  rows_to_dict_from [] rows.

(** The record literal built for one country. *)
Definition make_record (country_dict population_dict species_dict : dict (list field))
  (country : field) : result CountryRecord :=
  c0 <- lookup country_dict country ;;
  reg <- index c0 0 ;;
  c1 <- lookup country_dict country ;;
  sub <- index c1 1 ;;
  c2 <- lookup country_dict country ;;
  a0 <- index c2 2 ;;
  a <- py_float a0 ;;
  p <- lookup population_dict country ;;
  pop <- map_r py_float p ;;
  s <- lookup species_dict country ;;
  sp <- map_r py_int s ;;
  Ok {| region := reg; sub_region := sub; area := a;
        population := pop; species := sp |}.

(** The loop [for country in country_dict] over the remaining keys. *)
Fixpoint merge_loop (country_dict population_dict species_dict : dict (list field))
  (remaining : list field) (merged_data : dict CountryRecord)
  : result (dict CountryRecord) :=
  match remaining with
  | [] => Ok merged_data
  | country :: rest =>
      if dict_mem country population_dict && dict_mem country species_dict then
        r <- make_record country_dict population_dict species_dict country ;;
        merge_loop country_dict population_dict species_dict rest
                   (dict_set country r merged_data)
      else
        merge_loop country_dict population_dict species_dict rest merged_data
  end.

Definition merge_rows (country_data population_data species_data : list row)
  : result (dict CountryRecord) :=
  country_dict <- rows_to_dict (tl country_data) ;;
  population_dict <- rows_to_dict (tl population_data) ;;
  species_dict <- rows_to_dict (tl species_data) ;;
  merge_loop country_dict population_dict species_dict (keys country_dict) [].

Definition merge_data (fs : filesystem)
  (country_file population_file species_file : string)
  : result (dict CountryRecord) :=
  country_data <- read_csv fs country_file true ;;
  population_data <- read_csv fs population_file true ;;
  species_data <- read_csv fs species_file true ;;
  merge_rows country_data population_data species_data.

Record PopulationStats : Type := {
  change : float;
  avg_population : float;
  density : float
}.

Definition calculate_population_change (data : dict CountryRecord) (country : field)
  : result PopulationStats :=
  r1 <- lookup data country ;;
  let population := population r1 in
  r2 <- lookup data country ;;
  let area := area r2 in
  last <- index_last population ;;
  first <- index population 0 ;;
  let change := Float.sub last first in
  let avg_population := PyNum.np_mean population in
  last' <- index_last population ;;
  density <- PyNum.truediv last' area ;;
  Ok {| change := change; avg_population := avg_population; density := density |}.

Record SpeciesStats : Type := {
  country : field;
  avg_species : float;
  total_species : Z;
  species_per_sq_km : float
}.

(** The statistics computed for one matching record. *)
Definition species_entry (c : field) (info : CountryRecord) : result SpeciesStats :=
  let total_species := PyNum.sum (species info) in
  let avg_species := PyNum.np_mean_int (species info) in
  t <- PyNum.float_of_int total_species ;;
  species_per_sq_km <- PyNum.truediv t (area info) ;;
  Ok {| country := c; avg_species := avg_species;
        total_species := total_species;
        species_per_sq_km := species_per_sq_km |}.

(** The loop [for country, info in data.items()] over the remaining
    items, appending to the result list [acc]. *)
Fixpoint species_loop (items : list (field * CountryRecord)) (sub : string)
  (acc : list SpeciesStats) : result (list SpeciesStats) :=
  match items with
  | [] => Ok acc
  | (c, info) :: rest =>
      if field_eqb (sub_region info) (Str sub) then
        e <- species_entry c info ;;
        species_loop rest sub (acc ++ [e])
      else species_loop rest sub acc
  end.

Definition calculate_species_statistics (data : dict CountryRecord) (sub : string)
  : result (list SpeciesStats) :=
  species_loop data sub [].

(** ** Formatting for the terminal *)

Module Fmt.

(** [str(z)] for an integer. *)
Definition int_str (z : Z) : string :=
  if z <? 0 then "-" ++ PyNum.digits_of (- z) else PyNum.digits_of z.

Fixpoint spaces (n : nat) : string :=
  match n with
  | O => EmptyString
  | S n' => String " "%char (spaces n')
  end.

(** The format [<w] on a text: spaces are added on the right up to the
    width [w]; a longer text is kept whole. *)
Definition left_align (w : nat) (s : string) : string :=
  s ++ spaces (w - String.length s).

(** The integer nearest to [m * 2^e * 10^p], ties to even. *)
Definition round_scaled (m e : Z) (p : nat) : Z :=
  let num := m * 2 ^ Z.max e 0 * 10 ^ Z.of_nat p in
  let den := 2 ^ Z.max (- e) 0 in
  let q := num / den in
  let r := num mod den in
  match 2 * r ?= den with
  | Lt => q
  | Gt => q + 1
  | Eq => if Z.even q then q else q + 1
  end.

(** The digits of [n] with a point before the last [p] of them, zeros
    being added in front so that a digit stands before the point. *)
Definition fixed_digits (p : nat) (n : Z) : string :=
  let ds := PyNum.digits_of n in
  let ds := PyNum.zeros (S p - String.length ds) ++ ds in
  let k := (String.length ds - p)%nat in
  if Nat.eqb p 0 then ds
  else substring 0 k ds ++ "." ++ substring k p ds.

(** The format [.pf] on a float. *)
Definition fixed (p : nat) (x : float) : string :=
  match x with
  | S754_nan => "nan"
  | S754_infinity s => if s then "-inf" else "inf"
  | S754_zero s => (if s then "-" else "") ++ fixed_digits p 0
  | S754_finite s m e =>
      (if s then "-" else "") ++ fixed_digits p (round_scaled (Z.pos m) e p)
  end.

End Fmt.

(** ** design_project.py: the terminal *)

(** The exceptions of a run of the program: those of the functions
    above, and the two that only [main] can raise. *)
Inductive main_exn : Type :=
| Builtin (e : exn)
| TypeError
| EOFError.

(** The terminal: the lines still to be typed, and the texts written
    so far, the latest last. *)
Record world : Type := {
  stdin : list string;
  stdout : list string
}.

(** A computation on the terminal: the world it leaves, and its value
    or the exception it raised. *)
Definition io (A : Type) : Type := world -> world * (A + main_exn).

Definition io_ret {A : Type} (a : A) : io A := fun w => (w, inl a).

Definition io_bind {A B : Type} (c : io A) (k : A -> io B) : io B :=
  fun w =>
    match c w with
    | (w', inl a) => k a w'
    | (w', inr e) => (w', inr e)
    end.

Declare Scope io_scope.
Delimit Scope io_scope with io.
Notation "x <~ c ;; k" := (io_bind c (fun x => k))
  (at level 61, c at next level, right associativity) : io_scope.
Notation "c ;;; k" := (io_bind c (fun _ => k))
  (at level 61, right associativity) : io_scope.

Definition io_raise {A : Type} (e : main_exn) : io A := fun w => (w, inr e).

(** A call of one of the functions above. *)
Definition io_call {A : Type} (r : result A) : io A :=
  match r with
  | Ok a => io_ret a
  | Raise e => io_raise (Builtin e)
  end.

(** [print(s)] *)
Definition print (s : string) : io unit :=
  fun w => ({| stdin := stdin w; stdout := (stdout w ++ [(s ++ newline)%string])%list |}, inl tt).

(** [input(prompt)]: the prompt is written, and the next line typed is
    the value; [EOFError] when no line is left. *)
Definition input (prompt : string) : io string :=
  fun w =>
    let out := (stdout w ++ [prompt])%list in
    match stdin w with
    | [] => ({| stdin := []; stdout := out |}, inr EOFError)
    | line :: rest => ({| stdin := rest; stdout := out |}, inl line)
    end.

(** The items of [', '.join(ks)]: every one has to be a string. *)
Fixpoint join_names (ks : list field) : list string + main_exn :=
  match ks with
  | [] => inl []
  | Str s :: rest =>
      match join_names rest with
      | inl names => inl (s :: names)
      | inr e => inr e
      end
  | Num _ :: _ => inr TypeError
  end.

Definition headings : string :=
  Fmt.left_align 15 "Country" ++ Fmt.left_align 15 "Avg Species"
  ++ Fmt.left_align 15 "Total Species" ++ Fmt.left_align 15 "Species/Sq Km".

(** The line printed for one entry of the statistics. *)
Definition stat_line (stat : SpeciesStats) : string :=
  Fmt.left_align 15 (py_str (country stat))
  ++ Fmt.left_align 15 (Fmt.fixed 1 (avg_species stat))
  ++ Fmt.left_align 15 (Fmt.int_str (total_species stat))
  ++ Fmt.left_align 15 (Fmt.fixed 6 (species_per_sq_km stat)).

(** The loop [for stat in species_stats] of [display_output]. *)
Fixpoint print_stats (species_stats : list SpeciesStats) : io unit :=
  match species_stats with
  | [] => io_ret tt
  | stat :: rest => (print (stat_line stat) ;;; print_stats rest)%io
  end.

Definition display_output (change avg_population density : float)
  (species_stats : list SpeciesStats) : io unit :=
  (print (newline ++ "The change in population from 2000 to 2020 is: "
          ++ PyNum.str_of_float change ++ " people") ;;;
   print ("The average population from 2000 to 2020 is: "
          ++ Fmt.fixed 0 avg_population ++ " people") ;;;
   print ("The current population density is: "
          ++ Fmt.fixed 2 density ++ " people per sq km") ;;;
   print (newline
          ++ "The average number of threatened species in each country of the sub-region:") ;;;
   print headings ;;;
   print_stats species_stats)%io.

Definition country_file : string := "Country_Data.csv".
Definition population_file : string := "Population_Data.csv".
Definition species_file : string := "Threatened_Species.csv".

(** The comprehension [[country for country, info in data.items()
    if info["sub_region"] == sub_region]]. *)
Definition countries_in (data : dict CountryRecord) (sub : string) : list field :=
  map fst (filter (fun item => field_eqb (sub_region (snd item)) (Str sub)) data).

(** [x in l] on a list. *)
Definition list_mem (x : field) (l : list field) : bool :=
  existsb (fun k => field_eqb k x) l.

Definition main (fs : filesystem) : io unit :=
  (data <~ io_call (merge_data fs country_file population_file species_file) ;;
   sub <~ input "Please enter a sub-region: " ;;
   let countries_in_sub_region := countries_in data sub in
   match countries_in_sub_region with
   | [] => print "No countries found for the specified sub-region."
   | _ :: _ =>
       match join_names countries_in_sub_region with
       | inr e => io_raise e
       | inl names =>
           print ("Countries in " ++ sub ++ ": " ++ Py.join ", " names) ;;;
           c <~ input "Please enter a country within the specified sub-region: " ;;
           if negb (list_mem (Str c) countries_in_sub_region)
           then print "Invalid country selection."
           else
             pop_stats <~ io_call (calculate_population_change data (Str c)) ;;
             species_stats <~ io_call (calculate_species_statistics data sub) ;;
             display_output (change pop_stats) (avg_population pop_stats)
                            (density pop_stats) species_stats
       end
   end)%io.

(** A run of the program from the lines typed: the texts written, and
    how it ended. *)
Definition run_main (fs : filesystem) (typed : list string)
  : world * (unit + main_exn) :=
  main fs {| stdin := typed; stdout := [] |}.

(** * Specification-level definitions *)

(** ** Queries over the files and the merged dataset *)

(** The test of the loop body of [calculate_species_statistics]. *)
Definition matches (sub : string) (item : field * CountryRecord) : bool :=
  field_eqb (sub_region (snd item)) (Str sub).

(** The rows of a file after its header line, as [merge_data] reads it;
    none when the file cannot be read. *)
Definition data_rows (fs : filesystem) (filename : string) : list row :=
  match read_csv fs filename true with
  | Ok rows => tl rows
  | Raise _ => []
  end.

(** The first column of row [r] holds a value equal to [k]. *)
Definition row_has_key (k : field) (r : row) : bool :=
  match r with
  | k' :: _ => field_eqb k' k
  | [] => false
  end.

(** [k] appears in the first column of some row. *)
Definition in_first_column (k : field) (rows : list row) : bool :=
  existsb (row_has_key k) rows.

(** The fields after the key of the last row whose key is [k]. *)
Definition last_fields (k : field) (rows : list row) : option (list field) :=
  option_map (@tl field) (find (row_has_key k) (rev rows)).

(** The test of the loop body of [merge_data]: the country is a key of
    the population mapping and of the species mapping. *)
Definition joined (population_dict species_dict : dict (list field)) (c : field)
  : bool :=
  dict_mem c population_dict && dict_mem c species_dict.

(** The record assembled from the fields of a country's row in each of
    the three files. *)
Definition record_of (cf pf sf : list field) : result CountryRecord :=
  reg <- index cf 0 ;;
  sub <- index cf 1 ;;
  a0 <- index cf 2 ;;
  a <- py_float a0 ;;
  pop <- map_r py_float pf ;;
  sp <- map_r py_int sf ;;
  Ok {| region := reg; sub_region := sub; area := a;
        population := pop; species := sp |}.

(** The population and the species sequence have the same non-zero
    length [n] in every record. *)
Definition sequences_aligned (m : dict CountryRecord) : Prop :=
  exists n, (0 < n)%nat /\
    forall k r, In (k, r) m ->
      List.length (population r) = n /\ List.length (species r) = n.

(** The first column of a list of rows. *)
Definition first_column (rows : list row) : list field :=
  flat_map (fun r => match r with k :: _ => [k] | [] => [] end) rows.

(** The keys of [ks] in the order of their first occurrence, skipping
    those already [seen]. *)
Fixpoint first_occurrences_from (seen ks : list field) : list field :=
  match ks with
  | [] => []
  | k :: rest =>
      if existsb (fun k' => field_eqb k' k) seen
      then first_occurrences_from seen rest
      else k :: first_occurrences_from (seen ++ [k]) rest
  end.

Definition first_occurrences (ks : list field) : list field :=
  first_occurrences_from [] ks.

(** No key of the list equals a later one. *)
Fixpoint distinct_keys (ks : list field) : Prop :=
  match ks with
  | [] => True
  | k :: rest => (forall k', In k' rest -> field_eqb k k' = false) /\ distinct_keys rest
  end.




(** ** Tables the file format carries unchanged *)

Definition is_separator (c : ascii) : bool :=
  Ascii.eqb c comma || Ascii.eqb c Py.LF || Ascii.eqb c Py.CR.

Definition separator_free (s : string) : bool :=
  Py.all_chars (fun c => negb (is_separator c)) s.

(** A field that the file format carries unchanged.  A string: without
    surrounding whitespace, without comma or line break, and not of the
    numeric form.  A float: printed as digits with a point, which read
    back as the same float. *)
Definition plain_field (f : field) : Prop :=
  match f with
  | Str s =>
      Py.strip s = s /\ separator_free s = true /\
      Py.isdigit (Py.remove_first dot s) = false
  | Num x =>
      Py.isdigit (Py.remove_first dot (PyNum.str_of_float x)) = true /\
      PyNum.float_of_str (PyNum.str_of_float x) = Ok x
  end.

Definition plain_table (data : list row) : Prop :=
  Forall (fun r => r <> [] /\ Forall plain_field r) data.

(** The characters of a text of the numeric form. *)
Definition digit_or_dot (c : ascii) : bool := Py.isdigit_char c || Ascii.eqb c dot.

(** ** Decimals *)

(** The superscript digits two, three and one. *)
Definition is_superscript (c : ascii) : bool :=
  let n := Py.code c in ((n =? 178) || (n =? 179) || (n =? 185))%N.

(** The information separators FS, GS, RS and US. *)
Definition is_information_separator (c : ascii) : bool :=
  let n := Py.code c in ((28 <=? n) && (n <=? 31))%N.

(** A character on which [str.isdigit] and [str.strip] agree with
    [float]: neither a superscript digit nor an information separator. *)
Definition agreed_char (c : ascii) : bool :=
  negb (is_superscript c) && negb (is_information_separator c).

(** The value of a run of ASCII digits read after the value [acc]. *)
Fixpoint digits_value (acc : Z) (s : string) : Z :=
  match s with
  | EmptyString => acc
  | String c t => digits_value (10 * acc + PyNum.digit_val c) t
  end.

(** [s] is a non-negative decimal with integer part [a] and fraction
    part [b]: digits only, at least one, the point being optional when
    there is no fraction part. *)
Definition nonneg_decimal (s a b : string) : Prop :=
  Py.all_chars Py.is_decimal_digit a = true /\
  Py.all_chars Py.is_decimal_digit b = true /\
  a ++ b <> EmptyString /\
  (s = a /\ b = EmptyString \/ s = a ++ "." ++ b).

(** The float nearest to the decimal with integer part [a] and fraction
    part [b]. *)
Definition decimal_float (a b : string) : float :=
  Float.of_decimal false (digits_value 0 (a ++ b)) (- Z.of_nat (String.length b)).

(** The characters of a decimal: an ASCII digit or the point. *)
Definition decimal_char (c : ascii) : bool := Py.is_decimal_digit c || Ascii.eqb c dot.

(** ** Sample files *)

(** The text of a file given by its lines. *)
Fixpoint unlines (ls : list string) : string :=
  match ls with
  | [] => EmptyString
  | l :: rest => l ++ newline ++ unlines rest
  end.

Definition no_files : filesystem := fun _ => None.

Definition files_of (country population species : list string) : filesystem :=
  fs_write
    (fs_write
       (fs_write no_files "Country_Data.csv" (unlines country))
       "Population_Data.csv" (unlines population))
    "Threatened_Species.csv" (unlines species).

Definition merge_files (fs : filesystem) : result (dict CountryRecord) :=
  merge_data fs "Country_Data.csv" "Population_Data.csv" "Threatened_Species.csv".

Definition merged_or_empty (fs : filesystem) : dict CountryRecord :=
  match merge_files fs with
  | Ok m => m
  | Raise _ => []
  end.

(** Four countries, one of them without population or species rows,
    and one with two population rows. *)
Definition sample_files : filesystem :=
  files_of
    ["Country,UN Region,UN Sub-Region,Sq Km";
     "Aland,Europe,Northern Europe,50";
     "Chad,Africa,Middle Africa,1284000";
     "Benin,Africa,Western Africa,112760";
     "Eire,Europe,Northern Europe,70280"]
    ["Country,2000,2020";
     "Benin,6998023,12643123";
     "Aland,90,95";
     "Eire,3805174,4946119";
     "Aland,100,150"]
    ["Country,2000,2020";
     "Aland,3,5";
     "Eire,20,30";
     "Benin,60,80"].

Definition sample_merged : dict CountryRecord :=
  Eval vm_compute in merged_or_empty sample_files.

Definition sample_stats : list SpeciesStats :=
  Eval vm_compute in
    match calculate_species_statistics sample_merged "Northern Europe" with
    | Ok res => res
    | Raise _ => []
    end.

Definition aland : CountryRecord :=
  Eval vm_compute in
    match dict_get (Str "Aland") sample_merged with
    | Some r => r
    | None => {| region := Str ""; sub_region := Str ""; area := Float.zero;
                 population := []; species := [] |}
    end.




(** A population row without values. *)
Definition short_row_files : filesystem :=
  files_of
    ["Country,UN Region,UN Sub-Region,Sq Km"; "Aland,Europe,Northern Europe,50"]
    ["Country,2000,2020"; "Aland"]
    ["Country,2000,2020"; "Aland,3,5"].

Definition short_row_merged : dict CountryRecord :=
  Eval vm_compute in merged_or_empty short_row_files.


Definition plain_sample_table : list row :=
  [[Str "Country"; Str "Sq Km"; Str ""];
   [Str "Aland"; Num (Float.of_Z 50); Num (Float.of_decimal false 15 (-1))]].

(** A file whose only field is the superscript digit two. *)
Definition superscript_two : string := String (ascii_of_N 178) EmptyString.

Definition superscript_files : filesystem :=
  fs_write no_files "Country_Data.csv" (unlines [superscript_two]).

(** The digits 12 followed by the unit separator US. *)
Definition number_with_separator : string :=
  "12" ++ String (ascii_of_N 31) EmptyString.

(** ** Shape of a text and of its lines *)

(** The number of occurrences of [d] in [s]. *)
Fixpoint count_char (d : ascii) (s : string) : nat :=
  match s with
  | EmptyString => O
  | String c t => if Ascii.eqb c d then S (count_char d t) else count_char d t
  end.

(** The lines of a file as [read_csv] sees them. *)
Definition lines_of (text : string) : list string :=
  Py.split_lines (Py.universal_newlines text).

(** A text made of whole lines: empty, or ending with a line feed. *)
Definition complete_lines (text : string) : Prop :=
  text = EmptyString \/ exists t, text = t ++ newline.

(** The text of a file, empty when there is no such file. *)
Definition text_of (fs : filesystem) (name : string) : string :=
  match fs name with
  | Some t => t
  | None => EmptyString
  end.

(** ** Fields as the reader leaves them *)

(** A float that is a zero, a finite number or an infinity of positive
    sign; in particular not a NaN. *)
Definition nonnegative (x : float) : Prop :=
  match x with
  | S754_zero s | S754_infinity s | S754_finite s _ _ => s = false
  | S754_nan => False
  end.

(** A string field is trimmed and not of the numeric form; a numeric
    field is non-negative. *)
Definition normal_field (f : field) : Prop :=
  match f with
  | Str s => Py.strip s = s /\ Py.isdigit (Py.remove_first dot s) = false
  | Num x => nonnegative x
  end.

(** The first character of [s], if any, does not satisfy [sp]. *)
Definition head_kept (sp : ascii -> bool) (s : string) : bool :=
  match s with
  | EmptyString => true
  | String c _ => negb (sp c)
  end.

(** The characters a field that passes the digit test can be made of:
    digits, the point, and the whitespace around them. *)
Definition candidate_char (c : ascii) : bool := digit_or_dot c || Py.isspace c.

(** ** What a run writes *)

Definition sub_region_prompt : string := "Please enter a sub-region: ".

Definition country_prompt : string :=
  "Please enter a country within the specified sub-region: ".

(** The texts written by printing each of [lines]. *)
Definition printed (lines : list string) : list string :=
  map (fun l => l ++ newline) lines.

(** The line that lists the countries of a sub-region. *)
Definition countries_line (sub : string) (names : list string) : string :=
  "Countries in " ++ sub ++ ": " ++ Py.join ", " names.

(** The lines of the report: three figures, a title, the headings and
    one line per entry of the statistics. *)
Definition report_lines (change avg_population density : float)
  (species_stats : list SpeciesStats) : list string :=
  let change_line :=
    newline ++ "The change in population from 2000 to 2020 is: "
    ++ PyNum.str_of_float change ++ " people" in
  let average_line :=
    "The average population from 2000 to 2020 is: "
    ++ Fmt.fixed 0 avg_population ++ " people" in
  let density_line :=
    "The current population density is: "
    ++ Fmt.fixed 2 density ++ " people per sq km" in
  let title :=
    newline
    ++ "The average number of threatened species in each country of the sub-region:" in
  change_line :: average_line :: density_line :: title :: headings
  :: map stat_line species_stats.

(** The four cells of the line of an entry, before they are padded. *)
Definition stat_cells (stat : SpeciesStats) : list string :=
  [py_str (country stat); Fmt.fixed 1 (avg_species stat);
   Fmt.int_str (total_species stat); Fmt.fixed 6 (species_per_sq_km stat)].

(** A country file with a country named by a number. *)
Definition numbered_files : filesystem :=
  files_of
    ["Country,UN Region,UN Sub-Region,Sq Km"; "404,Europe,Northern Europe,50"]
    ["Country,2000,2020"; "404,100,150"]
    ["Country,2000,2020"; "404,3,5"].

Definition numbered_merged : dict CountryRecord :=
  Eval vm_compute in merged_or_empty numbered_files.

Definition aland_stats : PopulationStats :=
  Eval vm_compute in
    match calculate_population_change sample_merged (Str "Aland") with
    | Ok ps => ps
    | Raise _ => {| change := Float.zero; avg_population := Float.zero;
                    density := Float.zero |}
    end.

(** A file of two whole lines. *)
Definition two_line_files : filesystem :=
  fs_write no_files "out.csv" (unlines ["Country,Sq Km"; "Benin,112760"]).

Definition two_line_rows : list row :=
  Eval vm_compute in
    match read_csv two_line_files "out.csv" true with
    | Ok rows => rows
    | Raise _ => []
    end.

Definition sample_country_text : string :=
  Eval vm_compute in text_of sample_files "Country_Data.csv".

Definition sample_country_rows : list row :=
  Eval vm_compute in
    match read_csv sample_files "Country_Data.csv" true with
    | Ok rows => rows
    | Raise _ => []
    end.

Definition eire_stat : SpeciesStats :=
  Eval vm_compute in
    nth 1 sample_stats
        {| country := Str ""; avg_species := Float.zero; total_species := 0;
           species_per_sq_km := Float.zero |}.

(** * Properties *)

(** ** Equality of fields *)

Lemma SFeqb_cases (x y : float) :
  SFeqb x y = true ->
  (exists s s', x = S754_zero s /\ y = S754_zero s') \/ x = y.
Proof.
  unfold SFeqb.
  destruct x as [[] | [] | | [] mx ex], y as [[] | [] | | [] my ey]; simpl;
    try discriminate;
    try (intros _; right; reflexivity);
    try (intros _; left; eexists; eexists; split; reflexivity).
  all: destruct (Z.compare ex ey) eqn:E; try discriminate;
    apply Z.compare_eq in E; subst ey;
    change (Pos.compare_cont Eq mx my) with (Pos.compare mx my);
    destruct (Pos.compare mx my) eqn:M; try discriminate;
    apply Pos.compare_eq in M; subst my; intros _; right; reflexivity.
Qed.

Lemma field_eqb_cases (a b : field) :
  field_eqb a b = true ->
  (exists s s', a = Num (S754_zero s) /\ b = Num (S754_zero s')) \/ a = b.
Proof.
  destruct a as [s | x], b as [t | y]; simpl; try discriminate.
  - intros H. apply String.eqb_eq in H. right. congruence.
  - intros H. apply SFeqb_cases in H.
    destruct H as [(s & s' & -> & ->) | ->].
    + left. exists s, s'. split; reflexivity.
    + right. reflexivity.
Qed.

Lemma field_eqb_sym (a b : field) : field_eqb a b = true -> field_eqb b a = true.
Proof.
  intros H. destruct (field_eqb_cases a b H) as [(s & s' & -> & ->) | ->].
  - reflexivity.
  - exact H.
Qed.

Lemma field_eqb_trans (a b c : field) :
  field_eqb a b = true -> field_eqb b c = true -> field_eqb a c = true.
Proof.
  intros H1 H2.
  destruct (field_eqb_cases a b H1) as [(s & s' & -> & ->) | ->]; [| exact H2].
  destruct (field_eqb_cases _ c H2) as [(t & t' & E & ->) | <-]; reflexivity.
Qed.

Lemma field_eqb_comm (a b : field) : field_eqb a b = field_eqb b a.
Proof.
  destruct (field_eqb a b) eqn:E1, (field_eqb b a) eqn:E2; try reflexivity.
  - apply field_eqb_sym in E1. congruence.
  - apply field_eqb_sym in E2. congruence.
Qed.

(** Two keys equal under [==] are equal to the same keys. *)
Lemma field_eqb_congr (a b c : field) :
  field_eqb a b = true -> field_eqb c a = field_eqb c b.
Proof.
  intros H.
  destruct (field_eqb c a) eqn:Ea.
  - symmetry. eapply field_eqb_trans; eassumption.
  - destruct (field_eqb c b) eqn:Eb; [| reflexivity].
    rewrite <- Ea.
    eapply field_eqb_trans; [exact Eb | apply field_eqb_sym; exact H].
Qed.

Lemma field_eqb_congr_l (a b c : field) :
  field_eqb a b = true -> field_eqb a c = field_eqb b c.
Proof.
  intros H. rewrite (field_eqb_comm a c), (field_eqb_comm b c).
  apply field_eqb_congr. exact H.
Qed.

(** ** Dictionaries *)

Section Dict.
Context {V : Type}.
Implicit Types (d : dict V) (k : field) (v : V).

Lemma dict_mem_existsb k d :
  dict_mem k d = existsb (fun k' => field_eqb k' k) (keys d).
Proof.
  unfold dict_mem.
  induction d as [| [k' v'] d IH]; simpl; [reflexivity |].
  destruct (field_eqb k' k); [reflexivity | exact IH].
Qed.

Lemma dict_get_congr a b d :
  field_eqb a b = true -> dict_get a d = dict_get b d.
Proof.
  intros H. induction d as [| [k' v'] d IH]; simpl; [reflexivity |].
  rewrite (field_eqb_congr a b k' H). rewrite IH. reflexivity.
Qed.

Lemma dict_mem_congr a b d :
  field_eqb a b = true -> dict_mem a d = dict_mem b d.
Proof.
  intros H. unfold dict_mem. rewrite (dict_get_congr a b d H). reflexivity.
Qed.

Lemma dict_get_set k' v d k :
  dict_get k (dict_set k' v d) =
  if field_eqb k' k then Some v else dict_get k d.
Proof.
  induction d as [| [k0 v0] d IH]; simpl.
  - reflexivity.
  - destruct (field_eqb k0 k') eqn:E0; simpl.
    + rewrite (field_eqb_congr_l k0 k' k E0).
      destruct (field_eqb k' k); reflexivity.
    + rewrite IH.
      destruct (field_eqb k0 k) eqn:E1, (field_eqb k' k) eqn:E2; try reflexivity.
      rewrite (field_eqb_congr k' k k0) in E0 by exact E2. congruence.
Qed.

Lemma dict_mem_set k' v d k :
  dict_mem k (dict_set k' v d) = field_eqb k' k || dict_mem k d.
Proof.
  unfold dict_mem. rewrite dict_get_set.
  destruct (field_eqb k' k); reflexivity.
Qed.

Lemma keys_dict_set k v d :
  keys (dict_set k v d) = if dict_mem k d then keys d else (keys d ++ [k])%list.
Proof.
  unfold dict_mem, keys.
  induction d as [| [k0 v0] d IH]; simpl; [reflexivity |].
  destruct (field_eqb k0 k); simpl; [reflexivity |].
  rewrite IH. destruct (dict_get k d); reflexivity.
Qed.

(** Every entry of an updated dictionary is the new one or an old one,
    up to the key of a replaced entry. *)
Lemma dict_set_values (P : V -> Prop) k v d :
  P v -> Forall (fun e => P (snd e)) d ->
  Forall (fun e => P (snd e)) (dict_set k v d).
Proof.
  intros Hv Hd. induction Hd as [| [k0 v0] d H0 Hd IH]; simpl.
  - constructor; [exact Hv | constructor].
  - destruct (field_eqb k0 k); constructor; try assumption.
Qed.

End Dict.

(** ** Species statistics: the loop *)

Lemma species_loop_no_match (items : list (field * CountryRecord)) (sub : string)
  (acc : list SpeciesStats) :
  (forall item, In item items -> matches sub item = false) ->
  species_loop items sub acc = Ok acc.
Proof.
  revert acc.
  induction items as [| [c info] rest IH]; intros acc H; simpl.
  - reflexivity.
  - assert (Hc : matches sub (c, info) = false) by (apply H; left; reflexivity).
    unfold matches in Hc; simpl in Hc. rewrite Hc.
    apply IH. intros item Hin. apply H. right. exact Hin.
Qed.

(** C6: a sub-region that matches no record's [sub_region] field gives
    the empty result list, returned normally: the call does not raise. *)
Theorem species_statistics_no_match (data : dict CountryRecord) (sub : string) :
  (forall item, In item data -> matches sub item = false) ->
  calculate_species_statistics data sub = Ok [] /\
  ~ raises (calculate_species_statistics data sub).
Proof.
  intros H.
  assert (E : calculate_species_statistics data sub = Ok []).
  { unfold calculate_species_statistics. apply species_loop_no_match. exact H. }
  split; [exact E |].
  intros [e He]. rewrite E in He. discriminate.
Qed.

(** ** The per-file mappings *)

Lemma find_app {A : Type} (p : A -> bool) (l1 l2 : list A) :
  find p (l1 ++ l2) = match find p l1 with
                      | Some a => Some a
                      | None => find p l2
                      end.
Proof.
  induction l1 as [| a l1 IH]; simpl; [reflexivity |].
  destruct (p a); [reflexivity | exact IH].
Qed.

Lemma last_fields_cons (k : field) (r : row) (rows : list row) :
  last_fields k (r :: rows) =
  match last_fields k rows with
  | Some f => Some f
  | None => if row_has_key k r then Some (tl r) else None
  end.
Proof.
  unfold last_fields. simpl. rewrite find_app.
  destruct (find (row_has_key k) (rev rows)); simpl; [reflexivity |].
  destruct (row_has_key k r); reflexivity.
Qed.

Lemma rows_to_dict_from_get (rows : list row) :
  forall d d' k,
    rows_to_dict_from d rows = Ok d' ->
    dict_get k d' = match last_fields k rows with
                    | Some f => Some f
                    | None => dict_get k d
                    end.
Proof.
  induction rows as [| r rest IH]; intros d d' k H; simpl in H.
  - injection H as <-. reflexivity.
  - destruct r as [| k0 fields]; [discriminate |].
    rewrite last_fields_cons.
    rewrite (IH _ _ k H).
    destruct (last_fields k rest); [reflexivity |].
    rewrite dict_get_set. simpl.
    destruct (field_eqb k0 k); reflexivity.
Qed.

Lemma rows_to_dict_from_mem (rows : list row) :
  forall d d' k,
    rows_to_dict_from d rows = Ok d' ->
    dict_mem k d' = dict_mem k d || in_first_column k rows.
Proof.
  induction rows as [| r rest IH]; intros d d' k H; simpl in H.
  - injection H as <-. simpl. rewrite orb_false_r. reflexivity.
  - destruct r as [| k0 fields]; [discriminate |].
    rewrite (IH _ _ k H). rewrite dict_mem_set. simpl.
    destruct (field_eqb k0 k), (dict_mem k d); reflexivity.
Qed.

(** The comprehension fails only on a row without a first column. *)
Lemma rows_to_dict_from_returns (rows : list row) :
  forall d, Forall (fun r => r <> []) rows -> returns (rows_to_dict_from d rows).
Proof.
  induction rows as [| r rest IH]; intros d H; simpl.
  - eexists. reflexivity.
  - inversion H as [| ? ? Hr Hrest]; subst.
    destruct r as [| k0 fields]; [contradiction |].
    apply IH. exact Hrest.
Qed.

(** ** Rows read from a file are never empty *)

Lemma split_nonempty (sep : ascii) (s : string) : Py.split sep s <> [].
Proof.
  destruct s as [| c t]; simpl; [discriminate |].
  destruct (Ascii.eqb c sep); [discriminate |].
  destruct (Py.split sep t); discriminate.
Qed.

Lemma map_r_length {A B : Type} (f : A -> result B) (xs : list A) :
  forall ys, map_r f xs = Ok ys -> List.length ys = List.length xs.
Proof.
  induction xs as [| x xs IH]; intros ys H; simpl in H.
  - injection H as <-. reflexivity.
  - destruct (f x) as [y | e]; simpl in H; [| discriminate].
    destruct (map_r f xs) as [ys' | e]; simpl in H; [| discriminate].
    injection H as <-. simpl. f_equal. apply IH. reflexivity.
Qed.

Lemma parse_line_nonempty (line : string) (r : row) :
  parse_line line = Ok r -> r <> [].
Proof.
  unfold parse_line. intros H E. subst r.
  apply map_r_length in H. simpl in H.
  pose proof (split_nonempty comma line) as N.
  destruct (Py.split comma line); [contradiction | discriminate].
Qed.

Lemma read_lines_nonempty (h : bool) (lines : list string) :
  forall i rows, read_lines h i lines = Ok rows -> Forall (fun r => r <> []) rows.
Proof.
  induction lines as [| line rest IH]; intros i rows H; simpl in H.
  - injection H as <-. constructor.
  - destruct (parse_line line) as [r | e] eqn:P; simpl in H; [| discriminate].
    destruct (read_lines h (S i) rest) as [data | e] eqn:R; simpl in H; [| discriminate].
    injection H as <-.
    specialize (IH _ _ R).
    destruct (Nat.eqb i 0 && negb h); [exact IH |].
    constructor; [eapply parse_line_nonempty; exact P | exact IH].
Qed.

Lemma read_csv_nonempty (fs : filesystem) (name : string) (h : bool) (rows : list row) :
  read_csv fs name h = Ok rows -> Forall (fun r => r <> []) rows.
Proof.
  unfold read_csv. destruct (fs name); [| discriminate].
  apply read_lines_nonempty.
Qed.

Lemma Forall_tl {A : Type} (P : A -> Prop) (l : list A) :
  Forall P l -> Forall P (tl l).
Proof.
  intros H. destruct H; [constructor | assumption].
Qed.

(** ** The merge *)

Section Merge.
Variables country_dict population_dict species_dict : dict (list field).

Lemma merge_loop_mem (ks : list field) :
  forall acc m k,
    merge_loop country_dict population_dict species_dict ks acc = Ok m ->
    dict_mem k m =
    dict_mem k acc || existsb (fun c => field_eqb c k && joined population_dict species_dict c) ks.
Proof.
  induction ks as [| c rest IH]; intros acc m k H; simpl in H.
  - injection H as <-. simpl. rewrite orb_false_r. reflexivity.
  - simpl. fold (joined population_dict species_dict c) in H. destruct (joined population_dict species_dict c) eqn:J.
    + destruct (make_record country_dict population_dict species_dict c)
        as [r | e]; simpl in H; [| discriminate].
      rewrite (IH _ _ k H). rewrite dict_mem_set.
      destruct (field_eqb c k), (dict_mem k acc); reflexivity.
    + rewrite (IH _ _ k H). rewrite andb_false_r. reflexivity.
Qed.

Lemma joined_congr (a b : field) :
  field_eqb a b = true -> joined population_dict species_dict a = joined population_dict species_dict b.
Proof.
  intros H. unfold joined.
  rewrite (dict_mem_congr a b population_dict H).
  rewrite (dict_mem_congr a b species_dict H). reflexivity.
Qed.

Lemma existsb_joined (k : field) (ks : list field) :
  existsb (fun c => field_eqb c k && joined population_dict species_dict c) ks =
  existsb (fun c => field_eqb c k) ks && joined population_dict species_dict k.
Proof.
  induction ks as [| c rest IH]; simpl; [reflexivity |].
  rewrite IH.
  destruct (field_eqb c k) eqn:E; simpl; [| reflexivity].
  rewrite (joined_congr c k E).
  destruct (joined population_dict species_dict k); simpl; [reflexivity |].
  rewrite andb_false_r. reflexivity.
Qed.

(** Every record of the result was built by the loop body for some
    country. *)
Lemma merge_loop_records (ks : list field) :
  forall acc m,
    merge_loop country_dict population_dict species_dict ks acc = Ok m ->
    Forall (fun e => exists c,
              make_record country_dict population_dict species_dict c = Ok (snd e)) acc ->
    Forall (fun e => exists c,
              make_record country_dict population_dict species_dict c = Ok (snd e)) m.
Proof.
  induction ks as [| c rest IH]; intros acc m H Hacc; simpl in H.
  - injection H as <-. exact Hacc.
  - destruct (dict_mem c population_dict && dict_mem c species_dict).
    + destruct (make_record country_dict population_dict species_dict c)
        as [r | e] eqn:R; simpl in H; [| discriminate].
      apply (IH _ _ H).
      apply (dict_set_values
               (fun v => exists c,
                    make_record country_dict population_dict species_dict c = Ok v)).
      * exists c. exact R.
      * exact Hacc.
    + apply (IH _ _ H). exact Hacc.
Qed.


End Merge.

(** What a normal return of [merge_data] went through. *)
Lemma merge_data_inv (fs : filesystem) (c p s : string) (m : dict CountryRecord) :
  merge_data fs c p s = Ok m ->
  exists crows prows srows cd pd sd,
    read_csv fs c true = Ok crows /\
    read_csv fs p true = Ok prows /\
    read_csv fs s true = Ok srows /\
    rows_to_dict (tl crows) = Ok cd /\
    rows_to_dict (tl prows) = Ok pd /\
    rows_to_dict (tl srows) = Ok sd /\
    merge_loop cd pd sd (keys cd) [] = Ok m.
Proof.
  unfold merge_data, merge_rows. intros H.
  destruct (read_csv fs c true) as [crows | e]; simpl in H; [| discriminate].
  destruct (read_csv fs p true) as [prows | e]; simpl in H; [| discriminate].
  destruct (read_csv fs s true) as [srows | e]; simpl in H; [| discriminate].
  destruct (rows_to_dict (tl crows)) as [cd | e] eqn:C; simpl in H; [| discriminate].
  destruct (rows_to_dict (tl prows)) as [pd | e] eqn:P; simpl in H; [| discriminate].
  destruct (rows_to_dict (tl srows)) as [sd | e] eqn:S; simpl in H; [| discriminate].
  exists crows, prows, srows, cd, pd, sd. repeat split; assumption.
Qed.

Lemma data_rows_read (fs : filesystem) (name : string) (rows : list row) :
  read_csv fs name true = Ok rows -> data_rows fs name = tl rows.
Proof.
  intros H. unfold data_rows. rewrite H. reflexivity.
Qed.

Lemma rows_to_dict_mem (rows : list row) (d : dict (list field)) (k : field) :
  rows_to_dict rows = Ok d -> dict_mem k d = in_first_column k rows.
Proof.
  intros H. apply (rows_to_dict_from_mem rows [] d k) in H. exact H.
Qed.

Lemma rows_to_dict_get (rows : list row) (d : dict (list field)) (k : field) :
  rows_to_dict rows = Ok d -> dict_get k d = last_fields k rows.
Proof.
  intros H. apply (rows_to_dict_from_get rows [] d k) in H.
  rewrite H. destruct (last_fields k rows); reflexivity.
Qed.

(** C1: the keys of the mapping returned by [merge_data] are exactly
    the keys found in the first column of a data row of each of the
    three files; no other key appears. *)
Theorem merge_data_keys (fs : filesystem) (c p s : string) (m : dict CountryRecord) :
  merge_data fs c p s = Ok m ->
  forall k,
    dict_mem k m =
    in_first_column k (data_rows fs c)
    && in_first_column k (data_rows fs p)
    && in_first_column k (data_rows fs s).
Proof.
  intros H k.
  destruct (merge_data_inv _ _ _ _ _ H)
    as (crows & prows & srows & cd & pd & sd & Rc & Rp & Rs & Dc & Dp & Ds & L).
  rewrite (data_rows_read _ _ _ Rc), (data_rows_read _ _ _ Rp),
    (data_rows_read _ _ _ Rs).
  rewrite (merge_loop_mem cd pd sd (keys cd) [] m k L).
  rewrite existsb_joined. rewrite <- dict_mem_existsb. unfold joined.
  rewrite (rows_to_dict_mem _ _ k Dc), (rows_to_dict_mem _ _ k Dp),
    (rows_to_dict_mem _ _ k Ds).
  simpl. rewrite andb_assoc. reflexivity.
Qed.

(** ** Records are built from the last row of each file *)

Lemma make_record_joined (cd pd sd : dict (list field)) (c : field)
  (cf pf sf : list field) :
  dict_get c cd = Some cf -> dict_get c pd = Some pf -> dict_get c sd = Some sf ->
  make_record cd pd sd c = record_of cf pf sf.
Proof.
  intros Hc Hp Hs. unfold make_record, record_of, lookup.
  rewrite Hc, Hp, Hs. simpl.
  destruct (index cf 0); simpl; [| reflexivity].
  destruct (index cf 1); simpl; [| reflexivity].
  destruct (index cf 2); simpl; [| reflexivity].
  destruct (py_float a1); simpl; reflexivity.
Qed.

Lemma make_record_inv (cd pd sd : dict (list field)) (c : field) (r : CountryRecord) :
  make_record cd pd sd c = Ok r ->
  exists cf pf sf,
    dict_get c cd = Some cf /\ dict_get c pd = Some pf /\ dict_get c sd = Some sf /\
    record_of cf pf sf = Ok r.
Proof.
  intros H.
  destruct (dict_get c cd) as [cf |] eqn:Hc;
    [| unfold make_record, lookup in H; rewrite Hc in H; discriminate].
  destruct (dict_get c pd) as [pf |] eqn:Hp.
  - destruct (dict_get c sd) as [sf |] eqn:Hs.
    + exists cf, pf, sf. repeat split.
      rewrite <- (make_record_joined cd pd sd c cf pf sf Hc Hp Hs). exact H.
    + exfalso. unfold make_record, lookup in H. rewrite Hc, Hp, Hs in H. simpl in H.
      destruct (index cf 0); simpl in H; [| discriminate].
      destruct (index cf 1); simpl in H; [| discriminate].
      destruct (index cf 2); simpl in H; [| discriminate].
      destruct (py_float a1); simpl in H; [| discriminate].
      destruct (map_r py_float pf); simpl in H; discriminate.
  - exfalso. unfold make_record, lookup in H. rewrite Hc, Hp in H. simpl in H.
    destruct (index cf 0); simpl in H; [| discriminate].
    destruct (index cf 1); simpl in H; [| discriminate].
    destruct (index cf 2); simpl in H; [| discriminate].
    destruct (py_float a1); simpl in H; discriminate.
Qed.

Lemma make_record_congr (cd pd sd : dict (list field)) (a b : field) :
  field_eqb a b = true -> make_record cd pd sd a = make_record cd pd sd b.
Proof.
  intros H. unfold make_record, lookup.
  rewrite (dict_get_congr a b cd H), (dict_get_congr a b pd H),
    (dict_get_congr a b sd H).
  reflexivity.
Qed.

Lemma merge_loop_get (cd pd sd : dict (list field)) (ks : list field) :
  forall acc m,
    merge_loop cd pd sd ks acc = Ok m ->
    (forall k r, dict_get k acc = Some r -> make_record cd pd sd k = Ok r) ->
    forall k r, dict_get k m = Some r -> make_record cd pd sd k = Ok r.
Proof.
  induction ks as [| c rest IH]; intros acc m H Hacc; simpl in H.
  - injection H as <-. exact Hacc.
  - destruct (dict_mem c pd && dict_mem c sd).
    + destruct (make_record cd pd sd c) as [rc | e] eqn:R; simpl in H; [| discriminate].
      apply (IH _ _ H). intros k r. rewrite dict_get_set.
      destruct (field_eqb c k) eqn:E.
      * intros G. injection G as <-.
        rewrite <- (make_record_congr cd pd sd c k E). exact R.
      * apply Hacc.
    + apply (IH _ _ H). exact Hacc.
Qed.

(** C10: when a country occurs in several data rows of a file, the
    record [merge_data] stores for it is assembled from the fields of
    the last such row of each file; the earlier rows do not contribute. *)
Theorem duplicate_rows_last_wins (fs : filesystem) (c p s : string)
  (m : dict CountryRecord) (k : field) (r : CountryRecord) :
  merge_data fs c p s = Ok m ->
  dict_get k m = Some r ->
  exists cf pf sf,
    last_fields k (data_rows fs c) = Some cf /\
    last_fields k (data_rows fs p) = Some pf /\
    last_fields k (data_rows fs s) = Some sf /\
    record_of cf pf sf = Ok r.
Proof.
  intros H G.
  destruct (merge_data_inv _ _ _ _ _ H)
    as (crows & prows & srows & cd & pd & sd & Rc & Rp & Rs & Dc & Dp & Ds & L).
  assert (R : make_record cd pd sd k = Ok r).
  { apply (merge_loop_get cd pd sd (keys cd) [] m L); [| exact G].
    intros k' r' F. discriminate. }
  destruct (make_record_inv _ _ _ _ _ R) as (cf & pf & sf & Hc & Hp & Hs & Hr).
  exists cf, pf, sf.
  rewrite (data_rows_read _ _ _ Rc), (data_rows_read _ _ _ Rp),
    (data_rows_read _ _ _ Rs).
  rewrite <- (rows_to_dict_get _ _ k Dc), <- (rows_to_dict_get _ _ k Dp),
    <- (rows_to_dict_get _ _ k Ds).
  repeat split; assumption.
Qed.

(** ** Lengths of the two sequences of a record *)

Lemma record_of_lengths (cf pf sf : list field) (r : CountryRecord) :
  record_of cf pf sf = Ok r ->
  List.length (population r) = List.length pf /\
  List.length (species r) = List.length sf.
Proof.
  unfold record_of. intros H.
  destruct (index cf 0); simpl in H; [| discriminate].
  destruct (index cf 1); simpl in H; [| discriminate].
  destruct (index cf 2); simpl in H; [| discriminate].
  destruct (py_float a1); simpl in H; [| discriminate].
  destruct (map_r py_float pf) as [pop |] eqn:P; simpl in H; [| discriminate].
  destruct (map_r py_int sf) as [sp |] eqn:S; simpl in H; [| discriminate].
  injection H as <-. simpl.
  split; [eapply map_r_length; exact P | eapply map_r_length; exact S].
Qed.

Lemma last_fields_In (k : field) (rows : list row) (f : list field) :
  last_fields k rows = Some f -> exists r, In r rows /\ f = tl r.
Proof.
  unfold last_fields. intros H.
  destruct (find (row_has_key k) (rev rows)) as [r |] eqn:F; [| discriminate].
  injection H as <-. apply find_some in F. destruct F as [Hin _].
  exists r. split; [apply in_rev; exact Hin | reflexivity].
Qed.

(** C7, as amended: when every data row of the population file and of
    the species file has the same number of columns, a key and [n >= 1]
    values, every record returned by [merge_data] has a population
    sequence and a species sequence of length [n]. *)
Theorem merged_sequences_aligned (fs : filesystem) (c p s : string)
  (m : dict CountryRecord) (n : nat) :
  merge_data fs c p s = Ok m ->
  (0 < n)%nat ->
  (forall r, In r (data_rows fs p) -> List.length r = S n) ->
  (forall r, In r (data_rows fs s) -> List.length r = S n) ->
  (forall k r, In (k, r) m ->
     List.length (population r) = n /\ List.length (species r) = n) /\
  sequences_aligned m.
Proof.
  intros H Hn Hp Hs.
  assert (A : forall k r, In (k, r) m ->
     List.length (population r) = n /\ List.length (species r) = n);
    [| split; [exact A | exists n; split; [exact Hn | exact A]]].
  intros k r Hin.
  destruct (merge_data_inv _ _ _ _ _ H)
    as (crows & prows & srows & cd & pd & sd & Rc & Rp & Rs & Dc & Dp & Ds & L).
  pose proof (merge_loop_records cd pd sd (keys cd) [] m L (Forall_nil _)) as F.
  rewrite Forall_forall in F. destruct (F _ Hin) as [c' R]. simpl in R.
  destruct (make_record_inv _ _ _ _ _ R) as (cf & pf & sf & Gc & Gp & Gs & Hr).
  destruct (record_of_lengths _ _ _ _ Hr) as [Lp Ls].
  rewrite (rows_to_dict_get _ _ c' Dp) in Gp.
  rewrite (rows_to_dict_get _ _ c' Ds) in Gs.
  rewrite <- (data_rows_read _ _ _ Rp) in Gp.
  rewrite <- (data_rows_read _ _ _ Rs) in Gs.
  destruct (last_fields_In _ _ _ Gp) as (rp & Ip & ->).
  destruct (last_fields_In _ _ _ Gs) as (rs & Is & ->).
  specialize (Hp _ Ip). specialize (Hs _ Is).
  destruct rp; [discriminate |]. destruct rs; [discriminate |].
  simpl in *. split; congruence.
Qed.

(** ** Order of the merged mapping and of the statistics *)

Lemma distinct_keys_snoc (ks : list field) (k : field) :
  distinct_keys ks ->
  existsb (fun k' => field_eqb k' k) ks = false ->
  distinct_keys (ks ++ [k]).
Proof.
  induction ks as [| k0 rest IH]; simpl; intros D E.
  - split; [intros k' [] | exact I].
  - destruct D as [D0 D]. apply orb_false_iff in E. destruct E as [E0 E].
    split.
    + intros k' Hin. apply in_app_or in Hin. destruct Hin as [Hin | [<- | []]].
      * apply D0. exact Hin.
      * exact E0.
    + apply IH; assumption.
Qed.

Lemma rows_to_dict_from_keys (rows : list row) :
  forall d d',
    rows_to_dict_from d rows = Ok d' ->
    keys d' = (keys d ++ first_occurrences_from (keys d) (first_column rows))%list.
Proof.
  induction rows as [| r rest IH]; intros d d' H; simpl in H.
  - injection H as <-. simpl. rewrite app_nil_r. reflexivity.
  - destruct r as [| k0 fields]; [discriminate |].
    rewrite (IH _ _ H). simpl. rewrite keys_dict_set.
    rewrite <- dict_mem_existsb.
    destruct (dict_mem k0 d); [reflexivity |].
    rewrite <- app_assoc. reflexivity.
Qed.

Lemma rows_to_dict_from_distinct (rows : list row) :
  forall d d',
    rows_to_dict_from d rows = Ok d' ->
    distinct_keys (keys d) -> distinct_keys (keys d').
Proof.
  induction rows as [| r rest IH]; intros d d' H D; simpl in H.
  - injection H as <-. exact D.
  - destruct r as [| k0 fields]; [discriminate |].
    apply (IH _ _ H). rewrite keys_dict_set.
    destruct (dict_mem k0 d) eqn:M; [exact D |].
    apply distinct_keys_snoc; [exact D |].
    rewrite <- dict_mem_existsb. exact M.
Qed.

Lemma merge_loop_keys (cd pd sd : dict (list field)) (ks : list field) :
  forall acc m,
    merge_loop cd pd sd ks acc = Ok m ->
    distinct_keys ks ->
    (forall c, In c ks -> dict_mem c acc = false) ->
    keys m = (keys acc ++ filter (joined pd sd) ks)%list.
Proof.
  induction ks as [| c rest IH]; intros acc m H D F; simpl in H.
  - injection H as <-. simpl. rewrite app_nil_r. reflexivity.
  - simpl. fold (joined pd sd c) in H. destruct D as [D0 D].
    destruct (joined pd sd c).
    + destruct (make_record cd pd sd c) as [rc | e]; simpl in H; [| discriminate].
      rewrite (IH _ _ H D).
      * rewrite keys_dict_set. rewrite (F c (or_introl eq_refl)).
        rewrite <- app_assoc. reflexivity.
      * intros c' Hin. rewrite dict_mem_set.
        rewrite (D0 c' Hin). simpl. apply F. right. exact Hin.
    + apply (IH _ _ H D). intros c' Hin. apply F. right. exact Hin.
Qed.

Lemma species_loop_countries (items : list (field * CountryRecord)) (sub : string) :
  forall acc res,
    species_loop items sub acc = Ok res ->
    map country res = (map country acc ++ map fst (filter (matches sub) items))%list.
Proof.
  induction items as [| [c info] rest IH]; intros acc res H; simpl in H.
  - injection H as <-. simpl. rewrite app_nil_r. reflexivity.
  - simpl. unfold matches at 1. simpl.
    destruct (field_eqb (sub_region info) (Str sub)).
    + destruct (species_entry c info) as [e | x] eqn:E; simpl in H; [| discriminate].
      rewrite (IH _ _ H). rewrite map_app. rewrite <- app_assoc. simpl.
      unfold species_entry in E.
      destruct (PyNum.float_of_int (PyNum.sum (species info))); simpl in E;
        [| discriminate].
      destruct (PyNum.truediv a (area info)); simpl in E; [| discriminate].
      injection E as <-. reflexivity.
    + apply (IH _ _ H).
Qed.

(** C8: the statistics come in the iteration order of the merged
    mapping, and the merged mapping lists the countries in the order of
    their first occurrence in the country file, restricted to those
    that also occur in the population file and in the species file. *)
Theorem species_statistics_order (fs : filesystem) (c p s sub : string)
  (m : dict CountryRecord) (res : list SpeciesStats) :
  merge_data fs c p s = Ok m ->
  calculate_species_statistics m sub = Ok res ->
  map country res = map fst (filter (matches sub) m) /\
  keys m =
  filter (fun k => in_first_column k (data_rows fs p)
                   && in_first_column k (data_rows fs s))
         (first_occurrences (first_column (data_rows fs c))).
Proof.
  intros H G. split.
  - apply (species_loop_countries m sub [] res G).
  - destruct (merge_data_inv _ _ _ _ _ H)
      as (crows & prows & srows & cd & pd & sd & Rc & Rp & Rs & Dc & Dp & Ds & L).
    rewrite (data_rows_read _ _ _ Rc), (data_rows_read _ _ _ Rp),
      (data_rows_read _ _ _ Rs).
    rewrite (merge_loop_keys cd pd sd (keys cd) [] m L).
    + simpl. rewrite (rows_to_dict_from_keys _ _ _ Dc). simpl.
      apply filter_ext. intros k. unfold joined.
      rewrite (rows_to_dict_mem _ _ k Dp), (rows_to_dict_mem _ _ k Ds).
      reflexivity.
    + apply (rows_to_dict_from_distinct _ _ _ Dc). exact I.
    + intros c' _. reflexivity.
Qed.

(** ** Population statistics *)

Lemma index_last_last {A : Type} (l : list A) (d : A) :
  l <> [] -> index_last l = Ok (last l d).
Proof.
  intros H. unfold index_last.
  rewrite (app_removelast_last d H) at 1.
  rewrite rev_app_distr. reflexivity.
Qed.



(** ** Species statistics: the values *)





Lemma matches_exact (sub : string) (k : field) (info : CountryRecord) :
  matches sub (k, info) = true <-> sub_region info = Str sub.
Proof.
  unfold matches. simpl. split.
  - destruct (sub_region info) as [t | x]; simpl; [| discriminate].
    intros H. apply String.eqb_eq in H. congruence.
  - intros ->. simpl. apply String.eqb_refl.
Qed.

(** ** When the merge raises *)





Lemma dict_get_key {V : Type} (k : field) (d : dict V) (v : V) :
  dict_get k d = Some v -> exists c, In c (keys d) /\ field_eqb c k = true.
Proof.
  induction d as [| [k0 v0] d IH]; simpl; [discriminate |].
  destruct (field_eqb k0 k) eqn:E.
  - intros _. exists k0. split; [left; reflexivity | exact E].
  - intros H. destruct (IH H) as (c & Hin & Hc). exists c. split; [right |]; assumption.
Qed.

Lemma dict_mem_get {V : Type} (k : field) (d : dict V) :
  dict_mem k d = true -> exists v, dict_get k d = Some v.
Proof.
  unfold dict_mem. destruct (dict_get k d) as [v |]; [| discriminate].
  intros _. exists v. reflexivity.
Qed.

Lemma dict_mem_key {V : Type} (c k : field) (d : dict V) :
  In c (keys d) -> field_eqb c k = true -> dict_mem k d = true.
Proof.
  intros Hin E. rewrite dict_mem_existsb. apply existsb_exists.
  exists c. split; assumption.
Qed.



Lemma read_csv_missing (fs : filesystem) (name : string) (h : bool) :
  fs name = None -> read_csv fs name h = Raise FileNotFoundError.
Proof.
  intros H. unfold read_csv. rewrite H. reflexivity.
Qed.

(** ** Writing a table and reading it back *)

Lemma append_assoc (a b c : string) : (a ++ b) ++ c = a ++ (b ++ c).
Proof.
  induction a as [| x a IH]; simpl; [reflexivity | rewrite IH; reflexivity].
Qed.

Lemma all_chars_app (p : ascii -> bool) (a b : string) :
  Py.all_chars p (a ++ b) = Py.all_chars p a && Py.all_chars p b.
Proof.
  induction a as [| x a IH]; simpl; [reflexivity |].
  rewrite IH. rewrite andb_assoc. reflexivity.
Qed.

Lemma all_chars_impl (p q : ascii -> bool) (s : string) :
  (forall c, p c = true -> q c = true) ->
  Py.all_chars p s = true -> Py.all_chars q s = true.
Proof.
  intros I. induction s as [| x s IH]; simpl; [reflexivity |].
  intros H. apply andb_true_iff in H. destruct H as [Hx Hs].
  rewrite (I x Hx). simpl. apply IH. exact Hs.
Qed.

Lemma all_chars_join (p : ascii -> bool) (cells : list string) :
  p comma = true ->
  Forall (fun s => Py.all_chars p s = true) cells ->
  Py.all_chars p (Py.join "," cells) = true.
Proof.
  intros Pc F. induction F as [| s cells Hs F IH]; simpl; [reflexivity |].
  destruct cells as [| s' cells']; [exact Hs |].
  rewrite all_chars_app. rewrite Hs. unfold comma in Pc.
  cbn [Py.all_chars andb String.append]. rewrite Pc. exact IH.
Qed.

Lemma universal_newlines_id (s : string) :
  Py.all_chars (fun c => negb (Ascii.eqb c Py.CR)) s = true ->
  Py.universal_newlines s = s.
Proof.
  induction s as [| c s IH]; simpl; [reflexivity |].
  intros H. apply andb_true_iff in H. destruct H as [Hc Hs].
  destruct (Ascii.eqb c Py.CR); [discriminate |].
  rewrite (IH Hs). reflexivity.
Qed.

Lemma split_lines_line (l rest : string) :
  Py.all_chars (fun c => negb (Ascii.eqb c Py.LF)) l = true ->
  Py.split_lines (l ++ newline ++ rest) = (l ++ newline) :: Py.split_lines rest.
Proof.
  induction l as [| c l IH].
  - intros _. reflexivity.
  - cbn [Py.all_chars String.append Py.split_lines].
    intros H. apply andb_true_iff in H. destruct H as [Hc Hl].
    destruct (Ascii.eqb c Py.LF); [discriminate |].
    rewrite (IH Hl). reflexivity.
Qed.

Lemma split_no_sep (sep : ascii) (s : string) :
  Py.all_chars (fun c => negb (Ascii.eqb c sep)) s = true ->
  Py.split sep s = [s].
Proof.
  induction s as [| c s IH]; simpl; [reflexivity |].
  intros H. apply andb_true_iff in H. destruct H as [Hc Hs].
  destruct (Ascii.eqb c sep); [discriminate |].
  rewrite (IH Hs). reflexivity.
Qed.

Lemma split_app_sep (sep : ascii) (a t : string) :
  Py.all_chars (fun c => negb (Ascii.eqb c sep)) a = true ->
  Py.split sep (a ++ String sep t) = a :: Py.split sep t.
Proof.
  induction a as [| c a IH]; simpl.
  - intros _. rewrite Ascii.eqb_refl. reflexivity.
  - intros H. apply andb_true_iff in H. destruct H as [Hc Ha].
    destruct (Ascii.eqb c sep); [discriminate |].
    rewrite (IH Ha). reflexivity.
Qed.

Lemma rstrip_by_newline (sp : ascii -> bool) (s : string) :
  sp Py.LF = true -> Py.rstrip_by sp (s ++ newline) = Py.rstrip_by sp s.
Proof.
  intros L. induction s as [| c s IH].
  - cbn [String.append Py.rstrip_by newline Py.is_empty]. rewrite L. reflexivity.
  - cbn [String.append Py.rstrip_by]. rewrite IH. reflexivity.
Qed.

Lemma lstrip_by_newline (sp : ascii -> bool) (s : string) :
  sp Py.LF = true ->
  Py.lstrip_by sp (s ++ newline) =
  if Py.is_empty (Py.lstrip_by sp s) then EmptyString
  else Py.lstrip_by sp s ++ newline.
Proof.
  intros L. induction s as [| c s IH].
  - cbn [String.append Py.lstrip_by newline Py.is_empty]. rewrite L. reflexivity.
  - cbn [String.append Py.lstrip_by].
    destruct (sp c); [exact IH | reflexivity].
Qed.

Lemma strip_by_newline (sp : ascii -> bool) (s : string) :
  sp Py.LF = true -> Py.strip_by sp (s ++ newline) = Py.strip_by sp s.
Proof.
  intros L. unfold Py.strip_by. rewrite (lstrip_by_newline sp s L).
  destruct (Py.lstrip_by sp s) as [| c t] eqn:E; [reflexivity |].
  cbn [Py.is_empty]. rewrite (rstrip_by_newline sp _ L). reflexivity.
Qed.

Lemma float_of_str_strip (s t : string) :
  PyNum.strip_numeric s = PyNum.strip_numeric t ->
  PyNum.float_of_str s = PyNum.float_of_str t.
Proof.
  intros H. unfold PyNum.float_of_str. rewrite H. reflexivity.
Qed.

Lemma parse_field_newline (s : string) :
  parse_field (s ++ newline) = parse_field s.
Proof.
  unfold parse_field, Py.strip. rewrite (strip_by_newline Py.isspace s eq_refl).
  rewrite (float_of_str_strip (s ++ newline) s
             (strip_by_newline PyNum.numeric_space s eq_refl)).
  reflexivity.
Qed.

Lemma lstrip_by_no_space (sp : ascii -> bool) (s : string) :
  Py.all_chars (fun c => negb (sp c)) s = true -> Py.lstrip_by sp s = s.
Proof.
  destruct s as [| c s]; simpl; [reflexivity |].
  intros H. apply andb_true_iff in H. destruct H as [Hc _].
  destruct (sp c); [discriminate | reflexivity].
Qed.

Lemma rstrip_by_no_space (sp : ascii -> bool) (s : string) :
  Py.all_chars (fun c => negb (sp c)) s = true -> Py.rstrip_by sp s = s.
Proof.
  induction s as [| c s IH]; simpl; [reflexivity |].
  intros H. apply andb_true_iff in H. destruct H as [Hc Hs].
  rewrite (IH Hs). destruct (sp c); [discriminate | reflexivity].
Qed.

Lemma strip_no_space (s : string) :
  Py.all_chars (fun c => negb (Py.isspace c)) s = true -> Py.strip s = s.
Proof.
  intros H. unfold Py.strip, Py.strip_by. rewrite (lstrip_by_no_space _ s H).
  apply rstrip_by_no_space. exact H.
Qed.

Lemma lstrip_by_keeps (p sp : ascii -> bool) (s : string) :
  Py.all_chars p s = true -> Py.all_chars p (Py.lstrip_by sp s) = true.
Proof.
  induction s as [| c s IH]; simpl; [reflexivity |].
  intros H. destruct (sp c); [| exact H].
  apply andb_true_iff in H. apply IH. apply H.
Qed.

Lemma rstrip_by_keeps (p sp : ascii -> bool) (s : string) :
  Py.all_chars p s = true -> Py.all_chars p (Py.rstrip_by sp s) = true.
Proof.
  induction s as [| c s IH]; simpl; [reflexivity |].
  intros H. apply andb_true_iff in H. destruct H as [Hc Hs].
  destruct (sp c && Py.is_empty (Py.rstrip_by sp s)); [reflexivity |].
  simpl. rewrite Hc. apply IH. exact Hs.
Qed.

Lemma strip_by_keeps (p sp : ascii -> bool) (s : string) :
  Py.all_chars p s = true -> Py.all_chars p (Py.strip_by sp s) = true.
Proof.
  intros H. unfold Py.strip_by. apply rstrip_by_keeps. apply lstrip_by_keeps. exact H.
Qed.

(** Two notions of whitespace that agree on the characters of a text
    strip it alike. *)
Lemma lstrip_by_ext (sp1 sp2 : ascii -> bool) (s : string) :
  Py.all_chars (fun c => Bool.eqb (sp1 c) (sp2 c)) s = true ->
  Py.lstrip_by sp1 s = Py.lstrip_by sp2 s.
Proof.
  induction s as [| c s IH]; simpl; [reflexivity |].
  intros H. apply andb_true_iff in H. destruct H as [Hc Hs].
  apply Bool.eqb_prop in Hc. rewrite Hc.
  destruct (sp2 c); [apply IH; exact Hs | reflexivity].
Qed.

Lemma rstrip_by_ext (sp1 sp2 : ascii -> bool) (s : string) :
  Py.all_chars (fun c => Bool.eqb (sp1 c) (sp2 c)) s = true ->
  Py.rstrip_by sp1 s = Py.rstrip_by sp2 s.
Proof.
  induction s as [| c s IH]; simpl; [reflexivity |].
  intros H. apply andb_true_iff in H. destruct H as [Hc Hs].
  apply Bool.eqb_prop in Hc. rewrite Hc, (IH Hs). reflexivity.
Qed.

Lemma strip_by_ext (sp1 sp2 : ascii -> bool) (s : string) :
  Py.all_chars (fun c => Bool.eqb (sp1 c) (sp2 c)) s = true ->
  Py.strip_by sp1 s = Py.strip_by sp2 s.
Proof.
  intros H. unfold Py.strip_by. rewrite (lstrip_by_ext sp1 sp2 s H).
  apply rstrip_by_ext. apply lstrip_by_keeps. exact H.
Qed.

Lemma remove_first_all_chars (p : ascii -> bool) (d : ascii) (s : string) :
  Py.all_chars p (Py.remove_first d s) = true ->
  Py.all_chars (fun c => p c || Ascii.eqb c d) s = true.
Proof.
  induction s as [| c s IH]; simpl; [reflexivity |].
  destruct (Ascii.eqb c d) eqn:E.
  - intros H. rewrite orb_true_r. simpl.
    apply (all_chars_impl p); [| exact H].
    intros c' Hc'. rewrite Hc'. reflexivity.
  - simpl. intros H. apply andb_true_iff in H. destruct H as [Hc Hs].
    rewrite Hc. simpl. apply IH. exact Hs.
Qed.

Lemma numeric_form_chars (s : string) :
  Py.isdigit (Py.remove_first dot s) = true -> Py.all_chars digit_or_dot s = true.
Proof.
  unfold Py.isdigit. intros H. apply andb_true_iff in H. destruct H as [_ H].
  apply remove_first_all_chars in H. exact H.
Qed.

Lemma digit_or_dot_ordinary (c : ascii) :
  digit_or_dot c = true -> Py.isspace c = false /\ is_separator c = false.
Proof.
  destruct c as [[] [] [] [] [] [] [] []]; intros H;
    try discriminate H; split; reflexivity.
Qed.

Lemma printed_plain (f : field) :
  plain_field f ->
  parse_field (py_str f) = Ok f /\ separator_free (py_str f) = true.
Proof.
  destruct f as [s | x]; simpl.
  - intros (St & Sep & Dig). split; [| exact Sep].
    unfold parse_field. rewrite St, Dig. reflexivity.
  - intros (Dig & Back).
    pose proof (numeric_form_chars _ Dig) as Ch.
    assert (St : Py.strip (PyNum.str_of_float x) = PyNum.str_of_float x).
    { apply strip_no_space. apply (all_chars_impl digit_or_dot); [| exact Ch].
      intros c Hc. destruct (digit_or_dot_ordinary c Hc) as [-> _]. reflexivity. }
    split.
    + unfold parse_field. rewrite St, Dig, Back. reflexivity.
    + apply (all_chars_impl digit_or_dot); [| exact Ch].
      intros c Hc. destruct (digit_or_dot_ordinary c Hc) as [_ ->]. reflexivity.
Qed.

Lemma separator_free_no (d : ascii) (s : string) :
  is_separator d = true -> separator_free s = true ->
  Py.all_chars (fun c => negb (Ascii.eqb c d)) s = true.
Proof.
  intros D. apply all_chars_impl. intros c Hc.
  destruct (Ascii.eqb c d) eqn:E; [| reflexivity].
  apply Ascii.eqb_eq in E. subst c. rewrite D in Hc. discriminate.
Qed.

Lemma parse_line_format (r : row) :
  r <> [] -> Forall plain_field r -> parse_line (format_row r) = Ok r.
Proof.
  unfold parse_line, format_row.
  induction r as [| f rest IH]; [contradiction |].
  intros _ F. inversion F as [| ? ? Pf Prest]; subst.
  destruct (printed_plain f Pf) as [Rd Sep].
  destruct rest as [| f' rest'].
  - cbn [map Py.join].
    rewrite split_no_sep.
    + cbn [map_r]. rewrite parse_field_newline, Rd. reflexivity.
    + rewrite all_chars_app.
      rewrite (separator_free_no comma _ eq_refl Sep). reflexivity.
  - change (Py.join "," (map py_str (f :: f' :: rest')))
      with (py_str f ++ "," ++ Py.join "," (map py_str (f' :: rest'))).
    rewrite !append_assoc.
    change ("," ++ Py.join "," (map py_str (f' :: rest')) ++ newline)
      with (String comma (Py.join "," (map py_str (f' :: rest')) ++ newline)).
    rewrite (split_app_sep comma _ _ (separator_free_no comma _ eq_refl Sep)).
    cbn [map_r]. rewrite Rd. cbn [bind].
    rewrite IH; [reflexivity | discriminate | exact Prest].
Qed.

Lemma format_row_line (p : ascii -> bool) (r : row) :
  p comma = true ->
  (forall s, separator_free s = true -> Py.all_chars p s = true) ->
  Forall plain_field r ->
  Py.all_chars p (Py.join "," (map py_str r)) = true.
Proof.
  intros Pc Ps F. apply all_chars_join; [exact Pc |].
  apply Forall_map. apply (Forall_impl _ (P := plain_field)); [| exact F].
  intros f Pf. apply Ps. apply (printed_plain f Pf).
Qed.

Lemma split_lines_write (data : list row) :
  plain_table data -> Py.split_lines (write_rows data) = map format_row data.
Proof.
  intros T. induction T as [| r rest [_ Hr] T IH]; [reflexivity |].
  cbn [write_rows map]. unfold format_row at 1. rewrite append_assoc.
  rewrite split_lines_line.
  - rewrite IH. reflexivity.
  - apply format_row_line; [reflexivity | | exact Hr].
    intros s. apply separator_free_no. reflexivity.
Qed.

Lemma write_rows_no_CR (data : list row) :
  plain_table data ->
  Py.all_chars (fun c => negb (Ascii.eqb c Py.CR)) (write_rows data) = true.
Proof.
  intros T. induction T as [| r rest [_ Hr] T IH]; [reflexivity |].
  cbn [write_rows]. unfold format_row. rewrite !all_chars_app.
  rewrite IH. rewrite format_row_line; [reflexivity | reflexivity | | exact Hr].
  intros s. apply separator_free_no. reflexivity.
Qed.

Lemma read_lines_format (data : list row) :
  plain_table data ->
  forall i, read_lines true i (map format_row data) = Ok data.
Proof.
  intros T. induction T as [| r rest [Hn Hr] T IH]; intros i; [reflexivity |].
  cbn [map read_lines]. rewrite (parse_line_format r Hn Hr). cbn [bind].
  rewrite IH. cbn [bind]. rewrite andb_false_r. reflexivity.
Qed.


(** ** Classification of a field *)

Lemma app_empty_r (s : string) : s ++ EmptyString = s.
Proof.
  induction s as [| c s IH]; simpl; [reflexivity | rewrite IH; reflexivity].
Qed.

Lemma decimal_digit_facts (c : ascii) :
  Py.is_decimal_digit c = true ->
  Py.isdigit_char c = true /\ Ascii.eqb c dot = false /\
  Ascii.eqb c "_"%char = false /\ Ascii.eqb c "-"%char = false /\
  Ascii.eqb c "+"%char = false /\ PyNum.lower_char c = c /\
  Ascii.eqb c "i"%char = false /\ Ascii.eqb c "n"%char = false.
Proof.
  destruct c as [[] [] [] [] [] [] [] []]; intros H;
    try discriminate H; repeat split; reflexivity.
Qed.

Lemma isdigit_char_cases (c : ascii) :
  Py.isdigit_char c = Py.is_decimal_digit c || is_superscript c.
Proof.
  unfold Py.isdigit_char, is_superscript.
  rewrite !orb_assoc. reflexivity.
Qed.

Lemma remove_first_keeps (p : ascii -> bool) (d : ascii) (s : string) :
  Py.all_chars p s = true -> Py.all_chars p (Py.remove_first d s) = true.
Proof.
  induction s as [| c s IH]; simpl; [reflexivity |].
  intros H. apply andb_true_iff in H. destruct H as [Hc Hs].
  destruct (Ascii.eqb c d); [exact Hs |].
  simpl. rewrite Hc. simpl. apply IH. exact Hs.
Qed.

(** A text that is all digits once its first point is removed splits
    into an integer part and a fraction part. *)
Lemma remove_first_split (s : string) :
  Py.all_chars Py.is_decimal_digit (Py.remove_first dot s) = true ->
  exists a b,
    Py.all_chars Py.is_decimal_digit a = true /\
    Py.all_chars Py.is_decimal_digit b = true /\
    Py.remove_first dot s = a ++ b /\
    (s = a /\ b = EmptyString \/ s = a ++ "." ++ b).
Proof.
  induction s as [| c s IH]; simpl.
  - intros _. exists EmptyString, EmptyString. repeat split. left. split; reflexivity.
  - destruct (Ascii.eqb c dot) eqn:E.
    + intros H. apply Ascii.eqb_eq in E. subst c.
      exists EmptyString, s. repeat split; [exact H |]. right. reflexivity.
    + simpl. intros H. apply andb_true_iff in H. destruct H as [Hc Hs].
      destruct (IH Hs) as (a & b & Da & Db & R & F).
      exists (String c a), b. simpl. rewrite Hc, Da. repeat split; try assumption.
      * rewrite R. reflexivity.
      * destruct F as [[-> ->] | ->]; [left; split; reflexivity | right; reflexivity].
Qed.

Lemma remove_first_digits (a : string) :
  Py.all_chars Py.is_decimal_digit a = true -> Py.remove_first dot a = a.
Proof.
  induction a as [| c a IH]; simpl; [reflexivity |].
  intros H. apply andb_true_iff in H. destruct H as [Hc Ha].
  destruct (decimal_digit_facts c Hc) as (_ & -> & _).
  rewrite (IH Ha). reflexivity.
Qed.

Lemma remove_first_decimal (a b : string) :
  Py.all_chars Py.is_decimal_digit a = true ->
  Py.remove_first dot (a ++ String dot b) = a ++ b.
Proof.
  induction a as [| c a IH]; [reflexivity |].
  cbn [Py.all_chars String.append Py.remove_first].
  intros H. apply andb_true_iff in H. destruct H as [Hc Ha].
  destruct (decimal_digit_facts c Hc) as (_ & -> & _).
  rewrite (IH Ha). reflexivity.
Qed.

(** The test of [read_csv] against the form of a decimal: on a text
    without superscript digits the two agree. *)
Lemma numeric_form_decimal (s : string) :
  Py.all_chars (fun c => negb (is_superscript c)) s = true ->
  (Py.isdigit (Py.remove_first dot s) = true <-> exists a b, nonneg_decimal s a b).
Proof.
  intros NS. split.
  - unfold Py.isdigit. intros H. apply andb_true_iff in H. destruct H as [Ne D].
    assert (D' : Py.all_chars Py.is_decimal_digit (Py.remove_first dot s) = true).
    { pose proof (remove_first_keeps _ dot s NS) as NS'.
      revert D NS'. generalize (Py.remove_first dot s). intros t.
      induction t as [| c t IH]; simpl; [reflexivity |].
      intros D NS'. apply andb_true_iff in D. destruct D as [Dc Dt].
      apply andb_true_iff in NS'. destruct NS' as [Nc Nt].
      rewrite isdigit_char_cases in Dc.
      destruct (is_superscript c); [discriminate |].
      rewrite orb_false_r in Dc. rewrite Dc. simpl. apply IH; assumption. }
    destruct (remove_first_split s D') as (a & b & Da & Db & R & F).
    exists a, b. repeat split; try assumption.
    intros E. rewrite <- R in E. rewrite E in Ne. discriminate.
  - intros (a & b & Da & Db & Ne & F).
    assert (R : Py.remove_first dot s = a ++ b).
    { destruct F as [[-> ->] | ->].
      - rewrite app_empty_r. apply remove_first_digits. exact Da.
      - apply remove_first_decimal. exact Da. }
    rewrite R. unfold Py.isdigit. apply andb_true_iff. split.
    + destruct (a ++ b); [contradiction | reflexivity].
    + rewrite all_chars_app.
      rewrite (all_chars_impl _ Py.isdigit_char a
                 (fun c H => proj1 (decimal_digit_facts c H)) Da).
      rewrite (all_chars_impl _ Py.isdigit_char b
                 (fun c H => proj1 (decimal_digit_facts c H)) Db).
      reflexivity.
Qed.

Lemma decimal_char_facts (c : ascii) :
  decimal_char c = true ->
  Ascii.eqb c "_"%char = false /\ Ascii.eqb c "-"%char = false /\
  Ascii.eqb c "+"%char = false /\
  Ascii.eqb (PyNum.lower_char c) "i"%char = false /\
  Ascii.eqb (PyNum.lower_char c) "n"%char = false.
Proof.
  destruct c as [[] [] [] [] [] [] [] []]; intros H;
    try discriminate H; repeat split; reflexivity.
Qed.

Lemma nonneg_decimal_chars (s a b : string) :
  nonneg_decimal s a b -> Py.all_chars decimal_char s = true /\ s <> EmptyString.
Proof.
  intros (Da & Db & Ne & F).
  assert (Ca : Py.all_chars decimal_char a = true).
  { apply (all_chars_impl Py.is_decimal_digit); [| exact Da].
    intros c Hc. unfold decimal_char. rewrite Hc. reflexivity. }
  assert (Cb : Py.all_chars decimal_char b = true).
  { apply (all_chars_impl Py.is_decimal_digit); [| exact Db].
    intros c Hc. unfold decimal_char. rewrite Hc. reflexivity. }
  destruct F as [[-> ->] | ->].
  - split; [exact Ca |]. rewrite app_empty_r in Ne. exact Ne.
  - split.
    + rewrite all_chars_app. rewrite Ca.
      change (Py.all_chars decimal_char ("." ++ b))
        with (decimal_char dot && Py.all_chars decimal_char b).
      rewrite Cb. reflexivity.
    + destruct a; discriminate.
Qed.

Lemma remove_underscores_decimal (s : string) :
  Py.all_chars decimal_char s = true ->
  forall prev, Ascii.eqb prev "_"%char = false ->
               PyNum.remove_underscores prev s = Some s.
Proof.
  induction s as [| c s IH]; simpl; intros H prev P.
  - rewrite P. reflexivity.
  - apply andb_true_iff in H. destruct H as [Hc Hs].
    destruct (decimal_char_facts c Hc) as (U & _).
    rewrite U, P. simpl. rewrite (IH Hs c U). reflexivity.
Qed.

Lemma parse_sign_decimal (s : string) :
  Py.all_chars decimal_char s = true -> PyNum.parse_sign s = (false, s).
Proof.
  destruct s as [| c s]; simpl; [reflexivity |].
  intros H. apply andb_true_iff in H. destruct H as [Hc _].
  destruct (decimal_char_facts c Hc) as (_ & -> & -> & _). reflexivity.
Qed.

Lemma parse_special_decimal (neg : bool) (s : string) :
  Py.all_chars decimal_char s = true -> PyNum.parse_special neg s = None.
Proof.
  unfold PyNum.parse_special.
  destruct s as [| c s]; simpl; [reflexivity |].
  intros H. apply andb_true_iff in H. destruct H as [Hc _].
  destruct (decimal_char_facts c Hc) as (_ & _ & _ & I & N).
  rewrite I, N. reflexivity.
Qed.

Lemma read_digits_app (a rest : string) :
  Py.all_chars Py.is_decimal_digit a = true ->
  forall acc n,
    PyNum.read_digits acc n (a ++ rest) =
    PyNum.read_digits (digits_value acc a) (n + Z.of_nat (String.length a)) rest.
Proof.
  induction a as [| c a IH]; intros H acc n.
  - cbn [String.append digits_value String.length]. rewrite Z.add_0_r. reflexivity.
  - cbn [Py.all_chars] in H. apply andb_true_iff in H. destruct H as [Hc Ha].
    cbn [String.append PyNum.read_digits digits_value String.length]. rewrite Hc.
    rewrite (IH Ha). f_equal. lia.
Qed.

Lemma read_digits_all (a : string) (acc n : Z) :
  Py.all_chars Py.is_decimal_digit a = true ->
  PyNum.read_digits acc n a =
  (digits_value acc a, n + Z.of_nat (String.length a), EmptyString).
Proof.
  intros H. rewrite <- (app_empty_r a) at 1.
  rewrite (read_digits_app a EmptyString H). reflexivity.
Qed.

Lemma digits_value_app (a b : string) (acc : Z) :
  digits_value acc (a ++ b) = digits_value (digits_value acc a) b.
Proof.
  revert acc. induction a as [| c a IH]; intros acc; simpl; [reflexivity |].
  apply IH.
Qed.

Lemma length_app (a b : string) :
  String.length (a ++ b) = (String.length a + String.length b)%nat.
Proof.
  induction a as [| c a IH]; simpl; [reflexivity | rewrite IH; reflexivity].
Qed.

Lemma nonempty_length (s : string) :
  s <> EmptyString -> (Z.of_nat (String.length s) =? 0) = false.
Proof.
  destruct s; [contradiction |]. intros _. reflexivity.
Qed.

Lemma parse_decimal_value (neg : bool) (s a b : string) :
  nonneg_decimal s a b ->
  PyNum.parse_decimal neg s =
  Some (Float.of_decimal neg (digits_value 0 (a ++ b)) (- Z.of_nat (String.length b))).
Proof.
  intros (Da & Db & Ne & F). unfold PyNum.parse_decimal.
  destruct F as [[-> ->] | ->].
  - rewrite app_empty_r in *. rewrite (read_digits_all a 0 0 Da).
    cbn [String.length Z.of_nat Z.opp]. rewrite Z.add_0_r, Z.add_0_l.
    rewrite (nonempty_length a Ne). reflexivity.
  - change (a ++ "." ++ b) with (a ++ String dot b).
    rewrite (read_digits_app a (String dot b) Da).
    cbn [PyNum.read_digits].
    change (Py.is_decimal_digit dot) with false. cbv iota.
    change (Ascii.eqb dot "."%char) with true. cbv iota.
    rewrite (read_digits_all b _ 0 Db).
    rewrite digits_value_app. rewrite !Z.add_0_l.
    rewrite <- Nat2Z.inj_add, <- length_app.
    rewrite (nonempty_length _ Ne). reflexivity.
Qed.

Lemma float_of_str_decimal (value a b : string) :
  nonneg_decimal (PyNum.strip_numeric value) a b ->
  PyNum.float_of_str value = Ok (decimal_float a b).
Proof.
  intros D. destruct (nonneg_decimal_chars _ _ _ D) as [Ch _].
  unfold PyNum.float_of_str.
  rewrite (remove_underscores_decimal _ Ch zero eq_refl).
  rewrite (parse_sign_decimal _ Ch).
  rewrite (parse_special_decimal false _ Ch).
  rewrite (parse_decimal_value false _ a b D). reflexivity.
Qed.

Lemma agreed_char_facts (c : ascii) :
  agreed_char c = true ->
  is_superscript c = false /\
  Bool.eqb (Py.isspace c) (PyNum.numeric_space c) = true.
Proof.
  destruct c as [[] [] [] [] [] [] [] []]; intros H;
    try discriminate H; split; reflexivity.
Qed.

Lemma strip_numeric_agrees (value : string) :
  Py.all_chars agreed_char value = true ->
  PyNum.strip_numeric value = Py.strip value.
Proof.
  intros H. unfold PyNum.strip_numeric, Py.strip. symmetry.
  apply strip_by_ext. apply (all_chars_impl agreed_char); [| exact H].
  intros c Hc. apply (agreed_char_facts c Hc).
Qed.

(** On a field without superscript digits and information separators
    the reader classifies as the format says: a non-negative decimal
    becomes the nearest float, any other text is kept, trimmed, as a
    string. *)
Lemma parse_field_classifies (value : string) :
  Py.all_chars agreed_char value = true ->
  (forall a b, nonneg_decimal (Py.strip value) a b ->
               parse_field value = Ok (Num (decimal_float a b))) /\
  ((~ exists a b, nonneg_decimal (Py.strip value) a b) ->
   parse_field value = Ok (Str (Py.strip value))).
Proof.
  intros A.
  assert (NS : Py.all_chars (fun c => negb (is_superscript c)) (Py.strip value) = true).
  { apply strip_by_keeps. apply (all_chars_impl agreed_char); [| exact A].
    intros c Hc. destruct (agreed_char_facts c Hc) as [-> _]. reflexivity. }
  pose proof (numeric_form_decimal _ NS) as E. split.
  - intros a b D. unfold parse_field.
    rewrite (proj2 E (ex_intro _ a (ex_intro _ b D))).
    rewrite <- (strip_numeric_agrees value A) in D.
    rewrite (float_of_str_decimal value a b D). reflexivity.
  - intros N. unfold parse_field.
    destruct (Py.isdigit (Py.remove_first dot (Py.strip value))) eqn:T;
      [| reflexivity].
    destruct N. apply E. reflexivity.
Qed.

(** ** The sample files, evaluated *)

Lemma sample_merged_ok : merge_files sample_files = Ok sample_merged.
Proof. vm_compute. reflexivity. Qed.

Lemma sample_stats_ok :
  calculate_species_statistics sample_merged "Northern Europe" = Ok sample_stats.
Proof. vm_compute. reflexivity. Qed.

(** The figures of the record with the series 100, 150 and the area 50:
    a change of 50, a mean of 125 and a density of 3. *)
Example population_change_aland :
  calculate_population_change sample_merged (Str "Aland") =
  Ok {| change := Float.of_Z 50;
        avg_population := Float.of_Z 125;
        density := Float.of_Z 3 |}.
Proof. vm_compute. reflexivity. Qed.

Lemma merge_data_keys_witness :
  merge_data sample_files "Country_Data.csv" "Population_Data.csv"
             "Threatened_Species.csv" = Ok sample_merged /\
  dict_mem (Str "Chad") sample_merged =
  in_first_column (Str "Chad") (data_rows sample_files "Country_Data.csv")
  && in_first_column (Str "Chad") (data_rows sample_files "Population_Data.csv")
  && in_first_column (Str "Chad") (data_rows sample_files "Threatened_Species.csv").
Proof.
  split.
  - vm_compute. reflexivity.
  - apply (merge_data_keys sample_files "Country_Data.csv" "Population_Data.csv"
             "Threatened_Species.csv" sample_merged).
    vm_compute. reflexivity.
Defined.




Lemma sample_no_match :
  forall item, In item sample_merged -> matches "Atlantis" item = false.
Proof.
  intros item H. unfold sample_merged in H. simpl in H.
  destruct H as [<- | [<- | [<- | []]]]; vm_compute; reflexivity.
Defined.

Lemma species_statistics_no_match_witness :
  (forall item, In item sample_merged -> matches "Atlantis" item = false) /\
  calculate_species_statistics sample_merged "Atlantis" = Ok [] /\
  ~ raises (calculate_species_statistics sample_merged "Atlantis").
Proof.
  split.
  - exact sample_no_match.
  - exact (species_statistics_no_match sample_merged "Atlantis" sample_no_match).
Defined.

Lemma sample_three_columns (name : string) :
  name = "Population_Data.csv" \/ name = "Threatened_Species.csv" ->
  forall r, In r (data_rows sample_files name) -> List.length r = 3%nat.
Proof.
  intros [-> | ->] r H; vm_compute in H;
    repeat (destruct H as [<- | H]; [reflexivity |]); destruct H.
Defined.

Lemma merged_sequences_aligned_witness :
  merge_data sample_files "Country_Data.csv" "Population_Data.csv"
             "Threatened_Species.csv" = Ok sample_merged /\
  (0 < 2)%nat /\
  (forall r, In r (data_rows sample_files "Population_Data.csv") ->
             List.length r = 3%nat) /\
  (forall r, In r (data_rows sample_files "Threatened_Species.csv") ->
             List.length r = 3%nat) /\
  (forall k r, In (k, r) sample_merged ->
     List.length (population r) = 2%nat /\ List.length (species r) = 2%nat) /\
  sequences_aligned sample_merged.
Proof.
  assert (M : merge_data sample_files "Country_Data.csv" "Population_Data.csv"
                         "Threatened_Species.csv" = Ok sample_merged)
    by (vm_compute; reflexivity).
  assert (P := sample_three_columns "Population_Data.csv" (or_introl eq_refl)).
  assert (S := sample_three_columns "Threatened_Species.csv" (or_intror eq_refl)).
  assert (L : (0 < 2)%nat) by lia.
  split; [exact M |]. split; [exact L |]. split; [exact P |]. split; [exact S |].
  exact (merged_sequences_aligned sample_files _ _ _ sample_merged 2 M L P S).
Defined.

Lemma species_statistics_order_witness :
  merge_data sample_files "Country_Data.csv" "Population_Data.csv"
             "Threatened_Species.csv" = Ok sample_merged /\
  calculate_species_statistics sample_merged "Northern Europe" = Ok sample_stats /\
  map country sample_stats =
  map fst (filter (matches "Northern Europe") sample_merged) /\
  keys sample_merged =
  filter (fun k => in_first_column k (data_rows sample_files "Population_Data.csv")
                   && in_first_column k (data_rows sample_files "Threatened_Species.csv"))
         (first_occurrences (first_column (data_rows sample_files "Country_Data.csv"))).
Proof.
  assert (M : merge_data sample_files "Country_Data.csv" "Population_Data.csv"
                         "Threatened_Species.csv" = Ok sample_merged)
    by (vm_compute; reflexivity).
  assert (S : calculate_species_statistics sample_merged "Northern Europe"
              = Ok sample_stats) by (vm_compute; reflexivity).
  split; [exact M |]. split; [exact S |].
  exact (species_statistics_order sample_files _ _ _ "Northern Europe"
           sample_merged sample_stats M S).
Defined.

Lemma duplicate_rows_last_wins_witness :
  merge_data sample_files "Country_Data.csv" "Population_Data.csv"
             "Threatened_Species.csv" = Ok sample_merged /\
  dict_get (Str "Aland") sample_merged = Some aland /\
  exists cf pf sf,
    last_fields (Str "Aland") (data_rows sample_files "Country_Data.csv") = Some cf /\
    last_fields (Str "Aland") (data_rows sample_files "Population_Data.csv") = Some pf /\
    last_fields (Str "Aland") (data_rows sample_files "Threatened_Species.csv") = Some sf /\
    record_of cf pf sf = Ok aland.
Proof.
  assert (M : merge_data sample_files "Country_Data.csv" "Population_Data.csv"
                         "Threatened_Species.csv" = Ok sample_merged)
    by (vm_compute; reflexivity).
  assert (G : dict_get (Str "Aland") sample_merged = Some aland)
    by (vm_compute; reflexivity).
  split; [exact M |]. split; [exact G |].
  exact (duplicate_rows_last_wins sample_files _ _ _ sample_merged (Str "Aland")
           aland M G).
Defined.

(** Of the two population rows of the sample for Aland, the second
    gives the series. *)
Example aland_population_from_last_row :
  last_fields (Str "Aland") (data_rows sample_files "Population_Data.csv") =
  Some [Num (Float.of_Z 100); Num (Float.of_Z 150)] /\
  population aland = [Float.of_Z 100; Float.of_Z 150].
Proof. split; vm_compute; reflexivity. Qed.

Lemma plain_sample : plain_table plain_sample_table.
Proof.
  unfold plain_table, plain_sample_table.
  repeat (apply Forall_cons || apply Forall_nil
          || (split; [discriminate |])
          || (vm_compute; repeat split; reflexivity)).
Defined.


(** ** Where the statements fail *)



(** C7, counterexample: a population row that holds the country only
    gives a record whose population sequence is empty, next to a
    species sequence of two. *)
Lemma merged_sequences_not_aligned :
  merge_files short_row_files = Ok short_row_merged /\
  ~ sequences_aligned short_row_merged.
Proof.
  split; [vm_compute; reflexivity |].
  intros (n & Hn & H).
  destruct (H (Str "Aland") _ (or_introl eq_refl)) as [P _].
  simpl in P. lia.
Qed.


(** C4, at the failing input: a field made of the superscript digit two
    passes the digit test and is then rejected by [float]; the reader
    raises instead of returning the text. *)
Theorem read_csv_superscript_digit :
  parse_field superscript_two = Raise ValueError /\
  read_csv superscript_files "Country_Data.csv" true = Raise ValueError.
Proof. split; vm_compute; reflexivity. Qed.

(** Likewise for digits next to an information separator, which
    [str.strip] removes and [float] does not. *)
Example parse_field_information_separator :
  Py.strip number_with_separator = "12" /\
  parse_field number_with_separator = Raise ValueError.
Proof. split; vm_compute; reflexivity. Qed.

(** * Further properties *)

(** ** Reading without the header *)

Lemma read_lines_later (h : bool) (lines : list string) :
  forall i, read_lines h (S i) lines = read_lines true (S i) lines.
Proof.
  induction lines as [| line rest IH]; intros i; simpl; [reflexivity |].
  rewrite IH. reflexivity.
Qed.

(** X1: [read_csv] with [include_headers=False] parses the first line
    like the others and then leaves its row out: it returns the rows of
    the full reading without the first, and raises when the full
    reading raises. *)
Theorem read_csv_skip_header (fs : filesystem) (name : string) :
  read_csv fs name false = (rows <- read_csv fs name true ;; Ok (tl rows)).
Proof.
  unfold read_csv. destruct (fs name) as [text |]; [| reflexivity].
  destruct (Py.split_lines (Py.universal_newlines text)) as [| line rest];
    [reflexivity |].
  simpl. destruct (parse_line line) as [r | e]; simpl; [| reflexivity].
  rewrite (read_lines_later false rest 0).
  destruct (read_lines true 1 rest); reflexivity.
Qed.

(** ** One row per line, one field per comma and one more *)

Lemma split_length (sep : ascii) (s : string) :
  List.length (Py.split sep s) = S (count_char sep s).
Proof.
  induction s as [| c s IH]; simpl; [reflexivity |].
  destruct (Ascii.eqb c sep); simpl; [rewrite IH; reflexivity |].
  destruct (Py.split sep s) as [| f fs]; [discriminate IH | exact IH].
Qed.

Lemma read_lines_shape (lines : list string) :
  forall i rows,
    read_lines true i lines = Ok rows ->
    map (@List.length field) rows = map (fun l => S (count_char comma l)) lines.
Proof.
  induction lines as [| line rest IH]; intros i rows H; simpl in H.
  - injection H as <-. reflexivity.
  - destruct (parse_line line) as [r | e] eqn:P; simpl in H; [| discriminate].
    destruct (read_lines true (S i) rest) as [data | e] eqn:R; simpl in H;
      [| discriminate].
    rewrite andb_false_r in H. injection H as <-. simpl.
    rewrite (IH _ _ R). f_equal.
    unfold parse_line in P. apply map_r_length in P. rewrite P.
    apply split_length.
Qed.

(** X2: when [read_csv] returns with the header included, there is one
    row for every line of the file, blank lines too, and the row of a
    line has one field more than the line has commas. *)
Theorem read_csv_shape (fs : filesystem) (name text : string) (rows : list row) :
  fs name = Some text ->
  read_csv fs name true = Ok rows ->
  map (@List.length field) rows =
  map (fun l => S (count_char comma l)) (lines_of text).
Proof.
  intros F H. unfold read_csv in H. rewrite F in H.
  apply (read_lines_shape _ 0 rows H).
Qed.

(** ** When the population statistics raise *)

Lemma population_change_cases (data : dict CountryRecord) (country : field) :
  calculate_population_change data country =
  match dict_get country data with
  | None => Raise KeyError
  | Some r =>
      match population r with
      | [] => Raise IndexError
      | _ :: _ =>
          if Float.eqb (area r) Float.zero
          then Raise ZeroDivisionError
          else Ok {| change := Float.sub (last (population r) Float.zero)
                                         (hd Float.zero (population r));
                     avg_population := PyNum.np_mean (population r);
                     density := Float.div (last (population r) Float.zero)
                                          (area r) |}
      end
  end.
Proof.
  unfold calculate_population_change, lookup.
  destruct (dict_get country data) as [r |]; simpl; [| reflexivity].
  destruct (population r) as [| x xs] eqn:P; [reflexivity |].
  assert (N : x :: xs <> []) by discriminate.
  rewrite (index_last_last (x :: xs) Float.zero N). simpl.
  unfold PyNum.truediv.
  destruct (Float.eqb (area r) Float.zero); reflexivity.
Qed.

(** X3: [calculate_population_change] raises [KeyError] exactly for a
    country that is not a key of the dataset, [IndexError] exactly for
    a record with an empty population sequence, [ZeroDivisionError]
    exactly for a record with a population and an area equal to zero,
    and no other exception. *)
Theorem population_change_raises (data : dict CountryRecord) (country : field) :
  (calculate_population_change data country = Raise KeyError <->
   dict_get country data = None) /\
  (calculate_population_change data country = Raise IndexError <->
   exists r, dict_get country data = Some r /\ population r = []) /\
  (calculate_population_change data country = Raise ZeroDivisionError <->
   exists r, dict_get country data = Some r /\ population r <> [] /\
             Float.eqb (area r) Float.zero = true) /\
  (forall e, calculate_population_change data country = Raise e ->
             e = KeyError \/ e = IndexError \/ e = ZeroDivisionError).
Proof.
  rewrite population_change_cases.
  destruct (dict_get country data) as [r |] eqn:G.
  - destruct (population r) as [| x xs] eqn:P.
    + split; [split; discriminate |].
      split; [split; [intros _; exists r; split; [reflexivity | exact P] | reflexivity] |].
      split.
      * split; [discriminate |].
        intros (r' & E & N & _). injection E as <-. congruence.
      * intros e E. injection E as <-. right. left. reflexivity.
    + destruct (Float.eqb (area r) Float.zero) eqn:Z.
      * split; [split; discriminate |].
        split.
        { split; [discriminate |].
          intros (r' & E & P'). injection E as <-. congruence. }
        split.
        { split; [| reflexivity].
          intros _. exists r. split; [reflexivity |].
          split; [rewrite P; discriminate | exact Z]. }
        intros e E. injection E as <-. right. right. reflexivity.
      * split; [split; discriminate |].
        split.
        { split; [discriminate |].
          intros (r' & E & P'). injection E as <-. congruence. }
        split.
        { split; [discriminate |].
          intros (r' & E & _ & Z'). injection E as <-. congruence. }
        intros e E. discriminate.
  - split; [split; reflexivity |].
    split; [split; [discriminate | intros (r' & E & _); discriminate] |].
    split; [split; [discriminate | intros (r' & E & _); discriminate] |].
    intros e E. injection E as <-. left. reflexivity.
Qed.

(** ** Species statistics look at one sub-region only *)

Lemma species_loop_filter (items : list (field * CountryRecord)) (sub : string) :
  forall acc,
    species_loop items sub acc = species_loop (filter (matches sub) items) sub acc.
Proof.
  induction items as [| [c info] rest IH]; intros acc; simpl; [reflexivity |].
  unfold matches at 1. simpl.
  destruct (field_eqb (sub_region info) (Str sub)) eqn:M; simpl.
  - rewrite M. destruct (species_entry c info); simpl; [apply IH | reflexivity].
  - apply IH.
Qed.

(** X4: the records of other sub-regions have no part in the species
    statistics: the call gives the same result, or raises the same
    exception, on the dataset restricted to the records of the queried
    sub-region. *)
Theorem species_statistics_filter (data : dict CountryRecord) (sub : string) :
  calculate_species_statistics data sub =
  calculate_species_statistics (filter (matches sub) data) sub.
Proof.
  unfold calculate_species_statistics. apply species_loop_filter.
Qed.




(** ** The merged mapping is a dictionary *)

Lemma distinct_keys_filter (p : field -> bool) (ks : list field) :
  distinct_keys ks -> distinct_keys (filter p ks).
Proof.
  induction ks as [| k rest IH]; simpl; [intros _; exact I |].
  intros [D0 D]. destruct (p k); simpl.
  - split; [| apply IH; exact D].
    intros k' Hin. apply D0. apply filter_In in Hin. apply Hin.
  - apply IH. exact D.
Qed.

(** X6: no two entries of the mapping returned by [merge_data] have
    equal keys, however often a country occurs in the files. *)
Theorem merge_data_distinct_keys (fs : filesystem) (c p s : string)
  (m : dict CountryRecord) :
  merge_data fs c p s = Ok m -> distinct_keys (keys m).
Proof.
  intros H.
  destruct (merge_data_inv _ _ _ _ _ H)
    as (crows & prows & srows & cd & pd & sd & Rc & Rp & Rs & Dc & Dp & Ds & L).
  assert (D : distinct_keys (keys cd)).
  { apply (rows_to_dict_from_distinct _ _ _ Dc). exact I. }
  rewrite (merge_loop_keys cd pd sd (keys cd) [] m L D).
  - simpl. apply distinct_keys_filter. exact D.
  - intros c' _. reflexivity.
Qed.

(** ** Writing twice *)

Lemma write_rows_app (d1 d2 : list row) :
  write_rows (d1 ++ d2) = write_rows d1 ++ write_rows d2.
Proof.
  induction d1 as [| r d1 IH]; simpl; [reflexivity |].
  rewrite IH. rewrite append_assoc. reflexivity.
Qed.

(** X7: a second [write_csv] to the same file in append mode continues
    the first, as if the two tables had been written as one; in
    overwrite mode it replaces what the first wrote.  Other files are
    as before. *)
Theorem write_csv_twice (fs : filesystem) (name : string) (d1 d2 : list row)
  (overwrite : bool) (other : string) :
  write_csv (write_csv fs name d1 overwrite) name d2 false other =
  write_csv fs name (d1 ++ d2) overwrite other /\
  write_csv (write_csv fs name d1 overwrite) name d2 true other =
  write_csv fs name d2 true other.
Proof.
  unfold write_csv, fs_write.
  destruct (String.eqb other name) eqn:E; [| split; reflexivity].
  rewrite String.eqb_refl. split; [| reflexivity].
  rewrite write_rows_app. rewrite append_assoc. reflexivity.
Qed.

(** ** Appending to a file and reading it back *)

Lemma universal_newlines_line (n : nat) :
  forall t b, (String.length t <= n)%nat ->
    Py.universal_newlines (t ++ String Py.LF b) =
    Py.universal_newlines (t ++ newline) ++ Py.universal_newlines b.
Proof.
  induction n as [n IH] using lt_wf_ind. intros t b L.
  destruct t as [| c t1]; [reflexivity |].
  cbn [String.append Py.universal_newlines newline].
  destruct (Ascii.eqb c Py.CR) eqn:E.
  - destruct t1 as [| c' t2]; [reflexivity |].
    cbn [String.append]. cbn [String.length] in L.
    destruct (Ascii.eqb c' Py.LF).
    + rewrite (IH (String.length t2)); [reflexivity | lia | lia].
    + change (String c' (t2 ++ String Py.LF b))
        with (String c' t2 ++ String Py.LF b).
      change (String c' (t2 ++ String Py.LF EmptyString))
        with (String c' t2 ++ newline).
      rewrite (IH (String.length (String c' t2))); [reflexivity | simpl; lia | lia].
  - cbn [String.length] in L.
    change (String Py.LF EmptyString) with newline.
    rewrite (IH (String.length t1)); [reflexivity | lia | lia].
Qed.

Lemma universal_newlines_app (a b : string) :
  complete_lines a ->
  Py.universal_newlines (a ++ b) =
  Py.universal_newlines a ++ Py.universal_newlines b.
Proof.
  intros [-> | [t ->]]; [reflexivity |].
  rewrite append_assoc.
  change (newline ++ b) with (String Py.LF b).
  apply (universal_newlines_line (String.length t)). lia.
Qed.

Lemma universal_newlines_complete (n : nat) :
  forall t, (String.length t <= n)%nat ->
    exists t', Py.universal_newlines (t ++ newline) = t' ++ newline.
Proof.
  induction n as [n IH] using lt_wf_ind. intros t L.
  destruct t as [| c t1]; [exists EmptyString; reflexivity |].
  cbn [String.append Py.universal_newlines].
  cbn [String.length] in L.
  destruct (Ascii.eqb c Py.CR) eqn:E.
  - destruct t1 as [| c' t2]; [exists EmptyString; reflexivity |].
    cbn [String.append]. cbn [String.length] in L.
    destruct (Ascii.eqb c' Py.LF).
    + destruct (IH (String.length t2)) with (t := t2) as [t' Ht']; [lia | lia |].
      rewrite Ht'. exists (String Py.LF t'). reflexivity.
    + change (String c' (t2 ++ newline)) with (String c' t2 ++ newline).
      destruct (IH (String.length (String c' t2))) with (t := String c' t2)
        as [t' Ht']; [simpl; lia | lia |].
      rewrite Ht'. exists (String Py.LF t'). reflexivity.
  - destruct (IH (String.length t1)) with (t := t1) as [t' Ht']; [lia | lia |].
    rewrite Ht'. exists (String c t'). reflexivity.
Qed.

Lemma complete_lines_universal (a : string) :
  complete_lines a -> complete_lines (Py.universal_newlines a).
Proof.
  intros [-> | [t ->]]; [left; reflexivity |].
  right. apply (universal_newlines_complete (String.length t)). lia.
Qed.

Lemma split_lines_complete_nonempty (t : string) :
  Py.split_lines (t ++ newline) <> [].
Proof.
  destruct t as [| c t]; [discriminate |].
  cbn [String.append Py.split_lines].
  destruct (Ascii.eqb c Py.LF); [discriminate |].
  destruct (Py.split_lines (t ++ newline)); discriminate.
Qed.

Lemma split_lines_app (x y : string) :
  complete_lines x ->
  Py.split_lines (x ++ y) = (Py.split_lines x ++ Py.split_lines y)%list.
Proof.
  intros [-> | [t ->]]; [reflexivity |].
  induction t as [| c t IH]; [reflexivity |].
  cbn [String.append Py.split_lines].
  destruct (Ascii.eqb c Py.LF).
  - rewrite IH. reflexivity.
  - rewrite IH.
    pose proof (split_lines_complete_nonempty t) as N.
    destruct (Py.split_lines (t ++ newline)); [contradiction | reflexivity].
Qed.

Lemma read_lines_true_index (lines : list string) :
  forall i j, read_lines true i lines = read_lines true j lines.
Proof.
  induction lines as [| line rest IH]; intros i j; simpl; [reflexivity |].
  rewrite (IH (S i) (S j)). rewrite !andb_false_r. reflexivity.
Qed.

Lemma read_lines_app (l1 l2 : list string) (r1 r2 : list row) :
  forall i,
    read_lines true i l1 = Ok r1 ->
    read_lines true 0 l2 = Ok r2 ->
    read_lines true i (l1 ++ l2) = Ok (r1 ++ r2)%list.
Proof.
  revert r1. induction l1 as [| line rest IH]; intros r1 i H1 H2; simpl in *.
  - injection H1 as <-. rewrite (read_lines_true_index l2 i 0). exact H2.
  - destruct (parse_line line) as [r | e]; simpl in *; [| discriminate].
    destruct (read_lines true (S i) rest) as [data | e] eqn:R; simpl in H1;
      [| discriminate].
    rewrite andb_false_r in H1. injection H1 as <-.
    rewrite (IH data (S i) R H2). simpl. rewrite andb_false_r. reflexivity.
Qed.

(** X8: appending a plain table to a file made of whole lines, and
    reading the file back, gives the rows the file had followed by the
    rows of the table. *)
Theorem append_then_read (fs : filesystem) (name old : string)
  (old_rows data : list row) :
  fs name = Some old ->
  complete_lines old ->
  read_csv fs name true = Ok old_rows ->
  plain_table data ->
  read_csv (write_csv fs name data false) name true = Ok (old_rows ++ data)%list.
Proof.
  intros F C R T. unfold read_csv in R. rewrite F in R.
  unfold read_csv, write_csv, fs_write. rewrite String.eqb_refl, F.
  rewrite (universal_newlines_app old (write_rows data) C).
  rewrite (universal_newlines_id _ (write_rows_no_CR data T)).
  rewrite (split_lines_app _ _ (complete_lines_universal old C)).
  apply (read_lines_app _ _ old_rows data 0 R).
  rewrite (split_lines_write data T). apply read_lines_format. exact T.
Qed.

(** Appending to a file that does not exist creates it. *)
Lemma append_creates (fs : filesystem) (name : string) (data : list row) :
  fs name = None ->
  write_csv fs name data false name = write_csv fs name data true name.
Proof.
  intros F. unfold write_csv, fs_write. rewrite String.eqb_refl, F. reflexivity.
Qed.

(** ** The fields of a row read from a file *)

Lemma iter_pos_invariant {A : Type} (P : A -> Prop) (f : A -> A) :
  (forall x, P x -> P (f x)) ->
  forall n x, P x -> P (iter_pos f n x).
Proof.
  intros F. induction n as [n IH | n IH |]; intros x Hx; simpl.
  - apply IH. apply IH. apply F. exact Hx.
  - apply IH. apply IH. exact Hx.
  - apply F. exact Hx.
Qed.

Lemma shr_1_nonneg (mrs : shr_record) :
  0 <= shr_m mrs -> 0 <= shr_m (shr_1 mrs).
Proof.
  destruct mrs as [m r s]. simpl.
  destruct m as [| p | p]; try (destruct p); simpl; lia.
Qed.

Lemma shr_nonneg (mrs : shr_record) (e n : Z) :
  0 <= shr_m mrs -> 0 <= shr_m (fst (shr mrs e n)).
Proof.
  intros H. unfold shr. destruct n as [| p | p]; simpl; try exact H.
  apply (iter_pos_invariant (fun x => 0 <= shr_m x)); [apply shr_1_nonneg | exact H].
Qed.

Lemma shr_fexp_nonneg (m e : Z) (l : location) :
  0 <= m -> 0 <= shr_m (fst (shr_fexp Float.prec Float.emax m e l)).
Proof.
  intros H. unfold shr_fexp. apply shr_nonneg.
  destruct l as [| []]; exact H.
Qed.

Lemma round_nearest_even_nonneg (m : Z) (l : location) :
  0 <= m -> 0 <= round_nearest_even m l.
Proof.
  intros H. unfold round_nearest_even.
  destruct l as [| []]; try destruct (Z.even m); lia.
Qed.

Lemma binary_round_aux_nonnegative (m e : Z) (l : location) :
  0 <= m -> nonnegative (binary_round_aux Float.prec Float.emax false m e l).
Proof.
  intros H. unfold binary_round_aux.
  pose proof (shr_fexp_nonneg m e l H) as H1.
  destruct (shr_fexp Float.prec Float.emax m e l) as [mrs' e'].
  simpl in H1.
  pose proof (shr_fexp_nonneg _ e' loc_Exact
                (round_nearest_even_nonneg _ (loc_of_shr_record mrs') H1)) as H2.
  destruct (shr_fexp Float.prec Float.emax
              (round_nearest_even (shr_m mrs') (loc_of_shr_record mrs')) e' loc_Exact)
    as [mrs'' e''].
  simpl in H2.
  destruct (shr_m mrs'') as [| p | p]; simpl.
  - reflexivity.
  - match goal with |- context [if ?b then _ else _] => destruct b end; reflexivity.
  - lia.
Qed.

Lemma of_decimal_nonnegative (m e : Z) :
  0 <= m -> nonnegative (Float.of_decimal false m e).
Proof.
  intros H. unfold Float.of_decimal.
  destruct (m =? 0) eqn:M0; [reflexivity |].
  apply Z.eqb_neq in M0.
  destruct (0 <=? e) eqn:E.
  - destruct (400 <? e); [reflexivity |].
    apply Z.leb_le in E.
    assert (P : 0 < m * 10 ^ e) by (apply Z.mul_pos_pos; [lia | apply Z.pow_pos_nonneg; lia]).
    destruct (m * 10 ^ e) as [| p | p]; try lia.
    unfold binary_normalize, binary_round.
    destruct (shl_align p 0 (fexp Float.prec Float.emax (Z.pos (digits2_pos p) + 0)))
      as [mz ez].
    apply binary_round_aux_nonnegative. lia.
  - destruct (Z.log2 m + 1101 <? 3 * - e); [reflexivity |].
    apply binary_round_aux_nonnegative.
    apply Z.leb_gt in E.
    apply Z.div_pos.
    + apply Z.mul_nonneg_nonneg; [exact H | apply Z.pow_nonneg; lia].
    + apply Z.pow_pos_nonneg; lia.
Qed.

Lemma digit_val_nonneg (c : ascii) :
  Py.is_decimal_digit c = true -> 0 <= PyNum.digit_val c.
Proof.
  unfold Py.is_decimal_digit, PyNum.digit_val. intros H.
  apply andb_true_iff in H. destruct H as [H _]. apply N.leb_le in H.
  unfold Py.code in *. lia.
Qed.

Lemma read_digits_nonneg (s : string) :
  forall acc n v k rest,
    PyNum.read_digits acc n s = (v, k, rest) -> 0 <= acc -> 0 <= v.
Proof.
  induction s as [| c s IH]; intros acc n v k rest H A;
    cbn [PyNum.read_digits] in H.
  - injection H as <- _ _. exact A.
  - destruct (Py.is_decimal_digit c) eqn:D.
    + apply (IH _ _ _ _ _ H). pose proof (digit_val_nonneg c D). lia.
    + injection H as <- _ _. exact A.
Qed.

Lemma parse_decimal_nonnegative (s : string) (x : float) :
  PyNum.parse_decimal false s = Some x -> nonnegative x.
Proof.
  unfold PyNum.parse_decimal.
  destruct (PyNum.read_digits 0 0 s) as [[ip ni] s1] eqn:R1.
  pose proof (read_digits_nonneg _ _ _ _ _ _ R1 (Z.le_refl 0)) as Hip.
  assert (H2 : forall m nf s2,
             match s1 with
             | String c t =>
                 if Ascii.eqb c "."%char then PyNum.read_digits ip 0 t else (ip, 0, s1)
             | EmptyString => (ip, 0, s1)
             end = (m, nf, s2) -> 0 <= m).
  { intros m nf s2 E. destruct s1 as [| c t].
    - injection E as <- _ _. exact Hip.
    - destruct (Ascii.eqb c "."%char).
      + apply (read_digits_nonneg _ _ _ _ _ _ E Hip).
      + injection E as <- _ _. exact Hip. }
  destruct (match s1 with
            | String c t =>
                if Ascii.eqb c "."%char then PyNum.read_digits ip 0 t else (ip, 0, s1)
            | EmptyString => (ip, 0, s1)
            end) as [[m nf] s2] eqn:R2.
  specialize (H2 m nf s2 eq_refl).
  destruct (ni + nf =? 0); [discriminate |].
  destruct s2 as [| c t].
  - intros E. injection E as <-. apply of_decimal_nonnegative. exact H2.
  - destruct (Ascii.eqb (PyNum.lower_char c) "e"%char); [| discriminate].
    destruct (PyNum.parse_sign t) as [eneg t1].
    destruct (PyNum.read_digits 0 0 t1) as [[ev ne] t2].
    destruct ((ne =? 0) || negb (Py.is_empty t2)); [discriminate |].
    intros E. injection E as <-. apply of_decimal_nonnegative. exact H2.
Qed.

Lemma lstrip_by_head (sp : ascii -> bool) (s : string) :
  head_kept sp (Py.lstrip_by sp s) = true.
Proof.
  induction s as [| c s IH]; simpl; [reflexivity |].
  destruct (sp c) eqn:E; [exact IH |]. simpl. rewrite E. reflexivity.
Qed.

Lemma rstrip_by_head (sp : ascii -> bool) (s : string) :
  head_kept sp s = true -> head_kept sp (Py.rstrip_by sp s) = true.
Proof.
  destruct s as [| c s]; simpl; [reflexivity |].
  intros H. destruct (sp c) eqn:E; [discriminate |]. simpl. rewrite E. reflexivity.
Qed.

Lemma lstrip_by_fixed (sp : ascii -> bool) (s : string) :
  head_kept sp s = true -> Py.lstrip_by sp s = s.
Proof.
  destruct s as [| c s]; simpl; [reflexivity |].
  intros H. destruct (sp c); [discriminate | reflexivity].
Qed.

Lemma rstrip_by_idempotent (sp : ascii -> bool) (s : string) :
  Py.rstrip_by sp (Py.rstrip_by sp s) = Py.rstrip_by sp s.
Proof.
  induction s as [| c s IH]; simpl; [reflexivity |].
  destruct (sp c && Py.is_empty (Py.rstrip_by sp s)) eqn:E; [reflexivity |].
  simpl. rewrite IH, E. reflexivity.
Qed.

(** Stripping twice is stripping once. *)
Lemma strip_by_idempotent (sp : ascii -> bool) (s : string) :
  Py.strip_by sp (Py.strip_by sp s) = Py.strip_by sp s.
Proof.
  unfold Py.strip_by.
  rewrite (lstrip_by_fixed sp (Py.rstrip_by sp (Py.lstrip_by sp s))).
  - apply rstrip_by_idempotent.
  - apply rstrip_by_head. apply lstrip_by_head.
Qed.

(** The characters that stripping removes are whitespace. *)
Lemma lstrip_by_chars (p sp : ascii -> bool) (s : string) :
  Py.all_chars p (Py.lstrip_by sp s) = true ->
  Py.all_chars (fun c => p c || sp c) s = true.
Proof.
  induction s as [| c s IH]; simpl; [reflexivity |].
  destruct (sp c) eqn:E.
  - intros H. rewrite orb_true_r. simpl. apply IH. exact H.
  - simpl. intros H. apply andb_true_iff in H. destruct H as [Hc Hs].
    rewrite Hc. simpl.
    apply (all_chars_impl p); [| exact Hs].
    intros c' Hc'. rewrite Hc'. reflexivity.
Qed.

Lemma rstrip_by_chars (p sp : ascii -> bool) (s : string) :
  Py.all_chars p (Py.rstrip_by sp s) = true ->
  Py.all_chars (fun c => p c || sp c) s = true.
Proof.
  induction s as [| c s IH]; simpl; [reflexivity |].
  destruct (sp c && Py.is_empty (Py.rstrip_by sp s)) eqn:E.
  - intros _. apply andb_true_iff in E. destruct E as [E1 E2].
    rewrite E1, orb_true_r. simpl. apply IH.
    destruct (Py.rstrip_by sp s); [reflexivity | discriminate].
  - simpl. intros H. apply andb_true_iff in H. destruct H as [Hc Hs].
    rewrite Hc. simpl. apply IH. exact Hs.
Qed.

Lemma strip_by_chars (p sp : ascii -> bool) (s : string) :
  Py.all_chars p (Py.strip_by sp s) = true ->
  Py.all_chars (fun c => p c || sp c) s = true.
Proof.
  intros H. unfold Py.strip_by in H.
  apply rstrip_by_chars in H. apply lstrip_by_chars in H.
  apply (all_chars_impl (fun c => (p c || sp c) || sp c)); [| exact H].
  intros c Hc. destruct (p c), (sp c); try reflexivity; discriminate.
Qed.

Lemma candidate_char_facts (c : ascii) :
  candidate_char c = true ->
  Ascii.eqb c "_"%char = false /\ Ascii.eqb c "-"%char = false /\
  Ascii.eqb c "+"%char = false /\
  Ascii.eqb (PyNum.lower_char c) "i"%char = false /\
  Ascii.eqb (PyNum.lower_char c) "n"%char = false.
Proof.
  destruct c as [[] [] [] [] [] [] [] []]; intros H;
    try discriminate H; repeat split; reflexivity.
Qed.

Lemma remove_underscores_candidate (s : string) :
  Py.all_chars candidate_char s = true ->
  forall prev, Ascii.eqb prev "_"%char = false ->
               PyNum.remove_underscores prev s = Some s.
Proof.
  induction s as [| c s IH]; simpl; intros H prev P.
  - rewrite P. reflexivity.
  - apply andb_true_iff in H. destruct H as [Hc Hs].
    destruct (candidate_char_facts c Hc) as (U & _).
    rewrite U, P. simpl. rewrite (IH Hs c U). reflexivity.
Qed.

Lemma parse_sign_candidate (s : string) :
  Py.all_chars candidate_char s = true -> PyNum.parse_sign s = (false, s).
Proof.
  destruct s as [| c s]; simpl; [reflexivity |].
  intros H. apply andb_true_iff in H. destruct H as [Hc _].
  destruct (candidate_char_facts c Hc) as (_ & -> & -> & _). reflexivity.
Qed.

Lemma parse_special_candidate (neg : bool) (s : string) :
  Py.all_chars candidate_char s = true -> PyNum.parse_special neg s = None.
Proof.
  unfold PyNum.parse_special.
  destruct s as [| c s]; simpl; [reflexivity |].
  intros H. apply andb_true_iff in H. destruct H as [Hc _].
  destruct (candidate_char_facts c Hc) as (_ & _ & _ & I & N).
  rewrite I, N. reflexivity.
Qed.

Lemma float_of_str_nonnegative (value : string) (x : float) :
  Py.all_chars candidate_char value = true ->
  PyNum.float_of_str value = Ok x -> nonnegative x.
Proof.
  intros C. unfold PyNum.float_of_str.
  assert (C' : Py.all_chars candidate_char (PyNum.strip_numeric value) = true)
    by (apply strip_by_keeps; exact C).
  rewrite (remove_underscores_candidate _ C' zero eq_refl).
  rewrite (parse_sign_candidate _ C').
  rewrite (parse_special_candidate false _ C').
  destruct (PyNum.parse_decimal false (PyNum.strip_numeric value)) as [y |] eqn:D;
    [| discriminate].
  intros E. injection E as <-. apply (parse_decimal_nonnegative _ _ D).
Qed.

Lemma parse_field_normal (value : string) (f : field) :
  parse_field value = Ok f -> normal_field f.
Proof.
  unfold parse_field.
  destruct (Py.isdigit (Py.remove_first dot (Py.strip value))) eqn:T.
  - destruct (PyNum.float_of_str value) as [x | e] eqn:F; simpl; [| discriminate].
    intros E. injection E as <-. simpl.
    apply (float_of_str_nonnegative value x); [| exact F].
    apply numeric_form_chars in T. unfold Py.strip in T.
    apply strip_by_chars in T. exact T.
  - intros E. injection E as <-. simpl. split.
    + apply strip_by_idempotent.
    + exact T.
Qed.

Lemma map_r_Forall {A B : Type} (f : A -> result B) (P : B -> Prop) (xs : list A) :
  (forall x y, f x = Ok y -> P y) ->
  forall ys, map_r f xs = Ok ys -> Forall P ys.
Proof.
  intros F. induction xs as [| x xs IH]; intros ys H; simpl in H.
  - injection H as <-. constructor.
  - destruct (f x) as [y | e] eqn:E; simpl in H; [| discriminate].
    destruct (map_r f xs) as [ys' | e]; simpl in H; [| discriminate].
    injection H as <-. constructor; [apply (F x y E) | apply IH; reflexivity].
Qed.

Lemma read_lines_normal (h : bool) (lines : list string) :
  forall i rows, read_lines h i lines = Ok rows -> Forall (Forall normal_field) rows.
Proof.
  induction lines as [| line rest IH]; intros i rows H; simpl in H.
  - injection H as <-. constructor.
  - destruct (parse_line line) as [r | e] eqn:P; simpl in H; [| discriminate].
    destruct (read_lines h (S i) rest) as [data | e] eqn:R; simpl in H; [| discriminate].
    injection H as <-. specialize (IH _ _ R).
    destruct (Nat.eqb i 0 && negb h); [exact IH |].
    constructor; [| exact IH].
    apply (map_r_Forall parse_field normal_field _ parse_field_normal _ P).
Qed.

(** X9: every field of every row that [read_csv] returns is either a
    string without surrounding whitespace that is not of the numeric
    form, or a float that is not negative and not a NaN. *)
Theorem read_csv_normal_fields (fs : filesystem) (name : string) (h : bool)
  (rows : list row) :
  read_csv fs name h = Ok rows -> Forall (Forall normal_field) rows.
Proof.
  unfold read_csv. destruct (fs name); [| discriminate].
  apply read_lines_normal.
Qed.

(** ** Every entry of the merged mapping is found under its key *)

Lemma joined_reflexive (pd sd : dict (list field)) (c : field) :
  joined pd sd c = true -> field_eqb c c = true.
Proof.
  unfold joined. intros J. apply andb_true_iff in J. destruct J as [Jp _].
  destruct (dict_mem_get _ _ Jp) as [pf Gp].
  destruct (dict_get_key _ _ _ Gp) as (kp & _ & Ep).
  eapply field_eqb_trans; [apply field_eqb_sym; exact Ep | exact Ep].
Qed.

Lemma dict_get_In {V : Type} (d : dict V) (k : field) (v : V) :
  distinct_keys (keys d) -> In (k, v) d -> field_eqb k k = true ->
  dict_get k d = Some v.
Proof.
  intros D Hin R. induction d as [| [k0 v0] d IH]; [destruct Hin |].
  simpl in D. destruct D as [D0 D]. simpl.
  destruct Hin as [E | Hin].
  - injection E as -> ->. rewrite R. reflexivity.
  - rewrite (D0 k).
    + apply IH; assumption.
    + unfold keys. change k with (fst (k, v)). apply in_map. exact Hin.
Qed.

(** X10: every entry of the mapping returned by [merge_data] is found
    again when its key is looked up. *)
Theorem merge_data_lookup (fs : filesystem) (c p s : string)
  (m : dict CountryRecord) (k : field) (r : CountryRecord) :
  merge_data fs c p s = Ok m -> In (k, r) m -> dict_get k m = Some r.
Proof.
  intros H Hin.
  destruct (merge_data_inv _ _ _ _ _ H)
    as (crows & prows & srows & cd & pd & sd & Rc & Rp & Rs & Dc & Dp & Ds & L).
  assert (D : distinct_keys (keys cd)).
  { apply (rows_to_dict_from_distinct _ _ _ Dc). exact I. }
  assert (K : keys m = filter (joined pd sd) (keys cd)).
  { rewrite (merge_loop_keys cd pd sd (keys cd) [] m L D); [reflexivity |].
    intros c' _. reflexivity. }
  apply dict_get_In.
  - rewrite K. apply distinct_keys_filter. exact D.
  - exact Hin.
  - assert (Hk : In k (keys m)).
    { unfold keys. change k with (fst (k, r)). apply in_map. exact Hin. }
    rewrite K in Hk. apply filter_In in Hk. destruct Hk as [_ J].
    apply (joined_reflexive pd sd k J).
Qed.

(** ** Which exceptions the functions raise *)

Lemma map_r_raise {A B : Type} (f : A -> result B) (xs : list A) (e : exn) :
  map_r f xs = Raise e -> exists x, In x xs /\ f x = Raise e.
Proof.
  induction xs as [| x xs IH]; simpl; [discriminate |].
  destruct (f x) as [y | e'] eqn:F; simpl.
  - destruct (map_r f xs) as [ys | e'']; simpl; [discriminate |].
    intros E. injection E as ->.
    destruct (IH eq_refl) as (x' & Hin & Hx). exists x'. split; [right |]; assumption.
  - intros E. injection E as ->. exists x. split; [left; reflexivity | exact F].
Qed.

Lemma float_of_str_exn (s : string) (e : exn) :
  PyNum.float_of_str s = Raise e -> e = ValueError.
Proof.
  unfold PyNum.float_of_str.
  destruct (PyNum.remove_underscores zero (PyNum.strip_numeric s)) as [s1 |];
    [| intros E; injection E as <-; reflexivity].
  destruct (PyNum.parse_sign s1) as [neg s2].
  destruct (PyNum.parse_special neg s2); [discriminate |].
  destruct (PyNum.parse_decimal neg s2); [discriminate |].
  intros E. injection E as <-. reflexivity.
Qed.

Lemma py_float_exn (f : field) (e : exn) : py_float f = Raise e -> e = ValueError.
Proof.
  destruct f as [s | x]; simpl; [apply float_of_str_exn | discriminate].
Qed.

Lemma py_int_exn (f : field) (e : exn) :
  py_int f = Raise e -> e = ValueError \/ e = OverflowError.
Proof.
  destruct f as [s | x]; simpl.
  - unfold PyNum.int_of_str.
    destruct (PyNum.parse_sign (PyNum.strip_numeric s)) as [neg s1].
    destruct (PyNum.remove_underscores zero s1) as [s2 |];
      [| intros E; injection E as <-; left; reflexivity].
    destruct (PyNum.read_digits 0 0 s2) as [[v n] rest].
    destruct ((n =? 0) || negb (Py.is_empty rest)); [| discriminate].
    intros E. injection E as <-. left. reflexivity.
  - unfold PyNum.int_of_float. destruct (Float.trunc x); [discriminate |].
    intros E. injection E as <-.
    destruct (Float.is_nan x); [left | right]; reflexivity.
Qed.

Lemma parse_field_exn (value : string) (e : exn) :
  parse_field value = Raise e -> e = ValueError.
Proof.
  unfold parse_field.
  destruct (Py.isdigit (Py.remove_first dot (Py.strip value))); [| discriminate].
  destruct (PyNum.float_of_str value) as [x | e'] eqn:F; simpl; [discriminate |].
  intros E. injection E as <-. apply (float_of_str_exn _ _ F).
Qed.

Lemma read_lines_exn (h : bool) (lines : list string) (e : exn) :
  forall i, read_lines h i lines = Raise e -> e = ValueError.
Proof.
  induction lines as [| line rest IH]; intros i; simpl; [discriminate |].
  destruct (parse_line line) as [r | e'] eqn:P; simpl.
  - destruct (read_lines h (S i) rest) as [data | e''] eqn:R; simpl; [discriminate |].
    intros E. injection E as <-. apply (IH _ R).
  - intros E. injection E as <-. unfold parse_line in P.
    destruct (map_r_raise _ _ _ P) as (v & _ & Hv). apply (parse_field_exn _ _ Hv).
Qed.

Lemma read_csv_exn (fs : filesystem) (name : string) (h : bool) (e : exn) :
  read_csv fs name h = Raise e -> e = FileNotFoundError \/ e = ValueError.
Proof.
  unfold read_csv. destruct (fs name).
  - intros E. right. apply (read_lines_exn _ _ _ _ E).
  - intros E. injection E as <-. left. reflexivity.
Qed.

Lemma record_of_exn (cf pf sf : list field) (e : exn) :
  record_of cf pf sf = Raise e ->
  e = IndexError \/ e = ValueError \/ e = OverflowError.
Proof.
  unfold record_of, index.
  destruct cf as [| f0 [| f1 [| f2 rest]]]; simpl;
    try (intros E; injection E as <-; left; reflexivity).
  destruct (py_float f2) as [a | e'] eqn:A; simpl.
  - destruct (map_r py_float pf) as [pop | e'] eqn:P; simpl.
    + destruct (map_r py_int sf) as [sp | e'] eqn:S; simpl; [discriminate |].
      intros E. injection E as <-.
      destruct (map_r_raise _ _ _ S) as (x & _ & Hx).
      right. apply (py_int_exn _ _ Hx).
    + intros E. injection E as <-.
      destruct (map_r_raise _ _ _ P) as (x & _ & Hx).
      right. left. apply (py_float_exn _ _ Hx).
  - intros E. injection E as <-. right. left. apply (py_float_exn _ _ A).
Qed.

Lemma merge_loop_raise (cd pd sd : dict (list field)) (ks : list field) (e : exn) :
  forall acc,
    merge_loop cd pd sd ks acc = Raise e ->
    exists c, In c ks /\ joined pd sd c = true /\ make_record cd pd sd c = Raise e.
Proof.
  induction ks as [| c rest IH]; intros acc; simpl; [discriminate |].
  fold (joined pd sd c). destruct (joined pd sd c) eqn:J.
  - destruct (make_record cd pd sd c) as [r | e'] eqn:R; simpl.
    + intros H. destruct (IH _ H) as (c' & Hin & Hj & Hr).
      exists c'. split; [right |]; auto.
    + intros E. injection E as <-. exists c. split; [left; reflexivity |].
      split; assumption.
  - intros H. destruct (IH _ H) as (c' & Hin & Hj & Hr).
    exists c'. split; [right |]; auto.
Qed.

Lemma make_record_of_key (cd pd sd : dict (list field)) (c : field) :
  In c (keys cd) -> joined pd sd c = true ->
  exists cf pf sf, make_record cd pd sd c = record_of cf pf sf.
Proof.
  intros Hin J. pose proof (joined_reflexive pd sd c J) as R.
  unfold joined in J. apply andb_true_iff in J. destruct J as [Jp Js].
  destruct (dict_mem_get _ _ Jp) as [pf Gp].
  destruct (dict_mem_get _ _ Js) as [sf Gs].
  destruct (dict_mem_get c cd (dict_mem_key c c cd Hin R)) as [cf Gc].
  exists cf, pf, sf. apply make_record_joined; assumption.
Qed.

Lemma merge_data_raise_kind (fs : filesystem) (c p s : string) (e : exn) :
  merge_data fs c p s = Raise e ->
  e = FileNotFoundError \/ e = ValueError \/ e = IndexError \/ e = OverflowError.
Proof.
  unfold merge_data.
  destruct (read_csv fs c true) as [crows | e1] eqn:Rc; simpl;
    [| intros E; injection E as <-;
       destruct (read_csv_exn _ _ _ _ Rc) as [-> | ->]; auto].
  destruct (read_csv fs p true) as [prows | e1] eqn:Rp; simpl;
    [| intros E; injection E as <-;
       destruct (read_csv_exn _ _ _ _ Rp) as [-> | ->]; auto].
  destruct (read_csv fs s true) as [srows | e1] eqn:Rs; simpl;
    [| intros E; injection E as <-;
       destruct (read_csv_exn _ _ _ _ Rs) as [-> | ->]; auto].
  unfold merge_rows.
  destruct (rows_to_dict_from_returns (tl crows) [])
    as [cd Dc]; [apply Forall_tl; eapply read_csv_nonempty; exact Rc |].
  destruct (rows_to_dict_from_returns (tl prows) [])
    as [pd Dp]; [apply Forall_tl; eapply read_csv_nonempty; exact Rp |].
  destruct (rows_to_dict_from_returns (tl srows) [])
    as [sd Ds]; [apply Forall_tl; eapply read_csv_nonempty; exact Rs |].
  unfold rows_to_dict. rewrite Dc, Dp, Ds. simpl.
  intros L. destruct (merge_loop_raise _ _ _ _ _ _ L) as (k & Hin & J & R).
  destruct (make_record_of_key cd pd sd k Hin J) as (cf & pf & sf & E).
  rewrite E in R. destruct (record_of_exn _ _ _ _ R) as [-> | [-> | ->]]; auto.
Qed.


Lemma species_entry_exn (c : field) (info : CountryRecord) (e : exn) :
  species_entry c info = Raise e -> e = OverflowError \/ e = ZeroDivisionError.
Proof.
  unfold species_entry, PyNum.float_of_int, PyNum.truediv.
  destruct (Float.of_Z (PyNum.sum (species info))); simpl;
    try (intros E; injection E as <-; left; reflexivity);
    destruct (Float.eqb (area info) Float.zero); simpl; try discriminate;
    intros E; injection E as <-; right; reflexivity.
Qed.

Lemma species_loop_exn (items : list (field * CountryRecord)) (sub : string) (e : exn) :
  forall acc,
    species_loop items sub acc = Raise e ->
    e = OverflowError \/ e = ZeroDivisionError.
Proof.
  induction items as [| [c info] rest IH]; intros acc; simpl; [discriminate |].
  destruct (field_eqb (sub_region info) (Str sub)); [| apply IH].
  destruct (species_entry c info) as [x | e'] eqn:E; simpl; [apply IH |].
  intros H. injection H as <-. apply (species_entry_exn _ _ _ E).
Qed.

(** ** The terminal *)

Lemma print_stats_run (species_stats : list SpeciesStats) :
  forall w,
    print_stats species_stats w =
    ({| stdin := stdin w;
        stdout := (stdout w ++ printed (map stat_line species_stats))%list |}, inl tt).
Proof.
  induction species_stats as [| stat rest IH]; intros [i o]; simpl.
  - rewrite app_nil_r. reflexivity.
  - unfold io_bind, print. simpl. rewrite IH. simpl.
    rewrite <- app_assoc. reflexivity.
Qed.

(** [display_output] writes the lines of the report, reads nothing and
    does not raise. *)
Lemma display_output_run (change avg_population density : float)
  (species_stats : list SpeciesStats) (w : world) :
  display_output change avg_population density species_stats w =
  ({| stdin := stdin w;
      stdout := (stdout w
                 ++ printed (report_lines change avg_population density
                                          species_stats))%list |}, inl tt).
Proof.
  destruct w as [i o]. unfold display_output, io_bind, print. simpl.
  rewrite print_stats_run. simpl. unfold report_lines, printed.
  simpl. rewrite <- !app_assoc. reflexivity.
Qed.

Lemma join_names_exn (ks : list field) (e : main_exn) :
  join_names ks = inr e -> e = TypeError.
Proof.
  induction ks as [| [s | x] rest IH]; simpl.
  - discriminate.
  - destruct (join_names rest) as [names | e']; [discriminate |].
    intros E. injection E as <-. apply IH. reflexivity.
  - intros E. injection E as <-. reflexivity.
Qed.

Lemma join_names_number (ks : list field) (x : float) :
  In (Num x) ks -> join_names ks = inr TypeError.
Proof.
  induction ks as [| [s | y] rest IH]; simpl.
  - intros [].
  - intros [E | Hin]; [discriminate |]. rewrite (IH Hin). reflexivity.
  - intros _. reflexivity.
Qed.

(** X12: when no record of the merged dataset has the sub-region that
    was typed, the program writes the prompt and one message and
    returns; it reads no second line and computes no statistics. *)
Theorem main_no_countries (fs : filesystem) (data : dict CountryRecord)
  (sub : string) (rest : list string) :
  merge_data fs country_file population_file species_file = Ok data ->
  countries_in data sub = [] ->
  run_main fs (sub :: rest) =
  ({| stdin := rest;
      stdout := [sub_region_prompt;
                 "No countries found for the specified sub-region." ++ newline] |},
   inl tt).
Proof.
  intros M K. unfold run_main, main, io_bind. rewrite M. simpl.
  rewrite K. reflexivity.
Qed.

(** X13: when the sub-region has countries, all named by strings, and
    the country typed is not one of them, the program lists the
    countries, writes that the selection is invalid and returns. *)
Theorem main_invalid_country (fs : filesystem) (data : dict CountryRecord)
  (sub c : string) (names rest : list string) :
  merge_data fs country_file population_file species_file = Ok data ->
  countries_in data sub <> [] ->
  join_names (countries_in data sub) = inl names ->
  list_mem (Str c) (countries_in data sub) = false ->
  run_main fs (sub :: c :: rest) =
  ({| stdin := rest;
      stdout := [sub_region_prompt; countries_line sub names ++ newline;
                 country_prompt; "Invalid country selection." ++ newline] |},
   inl tt).
Proof.
  intros M N J L. unfold run_main, main, io_bind. rewrite M. simpl.
  destruct (countries_in data sub) as [| k ks] eqn:K; [contradiction |].
  rewrite J. simpl.
  change (list_mem (Str c) (k :: ks))
    with (field_eqb k (Str c) || list_mem (Str c) ks) in L.
  rewrite L. reflexivity.
Qed.

(** X14: a country of the chosen sub-region whose name reads as a
    number is a float key, and listing the countries then raises
    [TypeError], right after the first prompt. *)
Theorem main_numeric_country (fs : filesystem) (data : dict CountryRecord)
  (sub : string) (x : float) (rest : list string) :
  merge_data fs country_file population_file species_file = Ok data ->
  In (Num x) (countries_in data sub) ->
  run_main fs (sub :: rest) =
  ({| stdin := rest; stdout := [sub_region_prompt] |}, inr TypeError).
Proof.
  intros M Hin. unfold run_main, main, io_bind. rewrite M. simpl.
  rewrite (join_names_number _ x Hin).
  destruct (countries_in data sub); [destruct Hin | reflexivity].
Qed.

Lemma list_mem_lookup (data : dict CountryRecord) (sub : string) (k : field) :
  list_mem k (countries_in data sub) = true -> dict_get k data <> None.
Proof.
  unfold list_mem, countries_in. intros H.
  apply existsb_exists in H. destruct H as (k' & Hin & E).
  apply in_map_iff in Hin. destruct Hin as ([k'' r] & F & Hin). simpl in F. subst k''.
  apply filter_In in Hin. destruct Hin as [Hin _].
  assert (M : dict_mem k data = true).
  { apply (dict_mem_key k' k data); [| exact E].
    unfold keys. change k' with (fst (k', r)). apply in_map. exact Hin. }
  unfold dict_mem in M. destruct (dict_get k data); [discriminate | discriminate].
Qed.

(** X15: no run of the program ends with [KeyError]: the country handed
    to [calculate_population_change] is always a key of the dataset. *)
Theorem main_never_KeyError (fs : filesystem) (typed : list string) :
  snd (run_main fs typed) <> inr (Builtin KeyError).
Proof.
  unfold run_main, main, io_bind.
  destruct (merge_data fs country_file population_file species_file)
    as [data | e] eqn:M; cbn -[join_names list_mem display_output].
  - destruct typed as [| sub rest]; cbn -[join_names list_mem display_output];
      [discriminate |].
    destruct (countries_in data sub) as [| k ks] eqn:K;
      cbn -[join_names list_mem display_output]; [discriminate |].
    destruct (join_names (k :: ks)) as [names | e] eqn:J;
      cbn -[join_names list_mem display_output].
    + destruct rest as [| c rest]; cbn -[join_names list_mem display_output]; [discriminate |].
      destruct (list_mem (Str c) (k :: ks)) eqn:L;
        cbn -[join_names list_mem display_output]; [| discriminate].
      rewrite <- K in L. pose proof (list_mem_lookup data sub (Str c) L) as G.
      rewrite population_change_cases.
      destruct (dict_get (Str c) data) as [r |]; [| contradiction].
      destruct (population r); cbn -[display_output]; [discriminate |].
      destruct (Float.eqb (area r) Float.zero); cbn -[display_output];
        [discriminate |].
      unfold calculate_species_statistics.
      destruct (species_loop data sub []) as [ss | e] eqn:S; cbn -[display_output].
      * rewrite display_output_run. simpl. discriminate.
      * destruct (species_loop_exn _ _ _ _ S) as [-> | ->]; discriminate.
    + rewrite (join_names_exn _ _ J). discriminate.
  - intros E. injection E as E.
    destruct (merge_data_raise_kind fs _ _ _ e M) as [-> | [-> | [-> | ->]]];
      discriminate.
Qed.

(** X16: when both answers are accepted and the two computations
    return, the program writes the two prompts, the list of countries
    and the report, reads exactly two lines, and the report has one
    line per listed country, in the order of the list. *)
Theorem main_report (fs : filesystem) (data : dict CountryRecord)
  (sub c : string) (names rest : list string) (ps : PopulationStats)
  (ss : list SpeciesStats) :
  merge_data fs country_file population_file species_file = Ok data ->
  join_names (countries_in data sub) = inl names ->
  list_mem (Str c) (countries_in data sub) = true ->
  calculate_population_change data (Str c) = Ok ps ->
  calculate_species_statistics data sub = Ok ss ->
  run_main fs (sub :: c :: rest) =
  ({| stdin := rest;
      stdout := (sub_region_prompt :: (countries_line sub names ++ newline)%string
                 :: country_prompt
                 :: printed (report_lines (change ps) (avg_population ps)
                                          (density ps) ss))%list |},
   inl tt) /\
  map country ss = countries_in data sub.
Proof.
  intros M J L P S. split.
  - unfold run_main, main, io_bind. rewrite M.
    cbn -[join_names list_mem display_output].
    destruct (countries_in data sub) as [| k ks] eqn:K; [discriminate L |].
    rewrite J. cbn -[join_names list_mem display_output].
    rewrite L, P. cbn -[join_names list_mem display_output].
    rewrite S. cbn -[join_names list_mem display_output].
    rewrite display_output_run. reflexivity.
  - apply (species_loop_countries data sub [] ss S).
Qed.

(** ** The width of the table *)

Lemma spaces_length (n : nat) : String.length (Fmt.spaces n) = n.
Proof.
  induction n as [| n IH]; simpl; [reflexivity | rewrite IH; reflexivity].
Qed.

Lemma left_align_length (w : nat) (s : string) :
  String.length (Fmt.left_align w s) = Nat.max w (String.length s).
Proof.
  unfold Fmt.left_align. rewrite length_app, spaces_length. lia.
Qed.

(** X17: when each of the four cells of an entry has at most fifteen
    characters, its line is sixty characters wide, like the line of
    headings, so that the columns stand under their headings; a longer
    cell is written in full and makes the line longer. *)
Theorem stat_line_width (stat : SpeciesStats) :
  Forall (fun cell => (String.length cell <= 15)%nat) (stat_cells stat) ->
  String.length (stat_line stat) = 60%nat /\
  String.length headings = 60%nat.
Proof.
  intros F. split; [| reflexivity].
  unfold stat_cells in F.
  inversion F as [| ? ? H1 F1]; subst. inversion F1 as [| ? ? H2 F2]; subst.
  inversion F2 as [| ? ? H3 F3]; subst. inversion F3 as [| ? ? H4 F4]; subst.
  unfold stat_line. rewrite !length_app, !left_align_length. lia.
Qed.

(** ** The further properties on the sample files *)

Lemma read_csv_shape_witness :
  sample_files "Country_Data.csv" = Some sample_country_text /\
  read_csv sample_files "Country_Data.csv" true = Ok sample_country_rows /\
  map (@List.length field) sample_country_rows =
  map (fun l => S (count_char comma l)) (lines_of sample_country_text).
Proof.
  assert (F : sample_files "Country_Data.csv" = Some sample_country_text)
    by (vm_compute; reflexivity).
  assert (R : read_csv sample_files "Country_Data.csv" true = Ok sample_country_rows)
    by (vm_compute; reflexivity).
  split; [exact F |]. split; [exact R |].
  exact (read_csv_shape sample_files "Country_Data.csv" sample_country_text
           sample_country_rows F R).
Defined.

Lemma merge_data_distinct_keys_witness :
  merge_data sample_files "Country_Data.csv" "Population_Data.csv"
             "Threatened_Species.csv" = Ok sample_merged /\
  distinct_keys (keys sample_merged).
Proof.
  assert (M : merge_data sample_files "Country_Data.csv" "Population_Data.csv"
                         "Threatened_Species.csv" = Ok sample_merged)
    by (vm_compute; reflexivity).
  split; [exact M |].
  exact (merge_data_distinct_keys sample_files _ _ _ sample_merged M).
Defined.

Lemma two_lines_complete :
  complete_lines (unlines ["Country,Sq Km"; "Benin,112760"]).
Proof.
  right. exists ("Country,Sq Km" ++ newline ++ "Benin,112760"). reflexivity.
Defined.

Lemma append_then_read_witness :
  two_line_files "out.csv" = Some (unlines ["Country,Sq Km"; "Benin,112760"]) /\
  complete_lines (unlines ["Country,Sq Km"; "Benin,112760"]) /\
  read_csv two_line_files "out.csv" true = Ok two_line_rows /\
  plain_table plain_sample_table /\
  read_csv (write_csv two_line_files "out.csv" plain_sample_table false)
           "out.csv" true = Ok (two_line_rows ++ plain_sample_table)%list.
Proof.
  assert (F : two_line_files "out.csv"
              = Some (unlines ["Country,Sq Km"; "Benin,112760"]))
    by (vm_compute; reflexivity).
  assert (R : read_csv two_line_files "out.csv" true = Ok two_line_rows)
    by (vm_compute; reflexivity).
  split; [exact F |]. split; [exact two_lines_complete |].
  split; [exact R |]. split; [exact plain_sample |].
  exact (append_then_read two_line_files "out.csv" _ two_line_rows
           plain_sample_table F two_lines_complete R plain_sample).
Defined.

Lemma read_csv_normal_fields_witness :
  read_csv sample_files "Country_Data.csv" true = Ok sample_country_rows /\
  Forall (Forall normal_field) sample_country_rows.
Proof.
  assert (R : read_csv sample_files "Country_Data.csv" true = Ok sample_country_rows)
    by (vm_compute; reflexivity).
  split; [exact R |].
  exact (read_csv_normal_fields sample_files "Country_Data.csv" true
           sample_country_rows R).
Defined.

Lemma merge_data_lookup_witness :
  merge_data sample_files "Country_Data.csv" "Population_Data.csv"
             "Threatened_Species.csv" = Ok sample_merged /\
  In (Str "Aland", aland) sample_merged /\
  dict_get (Str "Aland") sample_merged = Some aland.
Proof.
  assert (M : merge_data sample_files "Country_Data.csv" "Population_Data.csv"
                         "Threatened_Species.csv" = Ok sample_merged)
    by (vm_compute; reflexivity).
  assert (Hin : In (Str "Aland", aland) sample_merged) by (left; reflexivity).
  split; [exact M |]. split; [exact Hin |].
  exact (merge_data_lookup sample_files _ _ _ sample_merged (Str "Aland") aland M Hin).
Defined.


Lemma main_no_countries_witness :
  merge_data sample_files country_file population_file species_file
  = Ok sample_merged /\
  countries_in sample_merged "Atlantis" = [] /\
  run_main sample_files ["Atlantis"; "Aland"] =
  ({| stdin := ["Aland"];
      stdout := [sub_region_prompt;
                 "No countries found for the specified sub-region." ++ newline] |},
   inl tt).
Proof.
  assert (M : merge_data sample_files country_file population_file species_file
              = Ok sample_merged) by (vm_compute; reflexivity).
  assert (K : countries_in sample_merged "Atlantis" = []) by (vm_compute; reflexivity).
  split; [exact M |]. split; [exact K |].
  exact (main_no_countries sample_files sample_merged "Atlantis" ["Aland"] M K).
Defined.

Lemma main_invalid_country_witness :
  merge_data sample_files country_file population_file species_file
  = Ok sample_merged /\
  countries_in sample_merged "Northern Europe" <> [] /\
  join_names (countries_in sample_merged "Northern Europe") = inl ["Aland"; "Eire"] /\
  list_mem (Str "Benin") (countries_in sample_merged "Northern Europe") = false /\
  run_main sample_files ["Northern Europe"; "Benin"] =
  ({| stdin := [];
      stdout := [sub_region_prompt;
                 countries_line "Northern Europe" ["Aland"; "Eire"] ++ newline;
                 country_prompt; "Invalid country selection." ++ newline] |},
   inl tt).
Proof.
  assert (M : merge_data sample_files country_file population_file species_file
              = Ok sample_merged) by (vm_compute; reflexivity).
  assert (N : countries_in sample_merged "Northern Europe" <> [])
    by (vm_compute; discriminate).
  assert (J : join_names (countries_in sample_merged "Northern Europe")
              = inl ["Aland"; "Eire"]) by (vm_compute; reflexivity).
  assert (L : list_mem (Str "Benin") (countries_in sample_merged "Northern Europe")
              = false) by (vm_compute; reflexivity).
  split; [exact M |]. split; [exact N |]. split; [exact J |]. split; [exact L |].
  exact (main_invalid_country sample_files sample_merged "Northern Europe" "Benin"
           ["Aland"; "Eire"] [] M N J L).
Defined.

Lemma main_numeric_country_witness :
  merge_data numbered_files country_file population_file species_file
  = Ok numbered_merged /\
  In (Num (Float.of_Z 404)) (countries_in numbered_merged "Northern Europe") /\
  run_main numbered_files ["Northern Europe"; "404"] =
  ({| stdin := ["404"]; stdout := [sub_region_prompt] |}, inr TypeError).
Proof.
  assert (M : merge_data numbered_files country_file population_file species_file
              = Ok numbered_merged) by (vm_compute; reflexivity).
  assert (Hin : In (Num (Float.of_Z 404))
                   (countries_in numbered_merged "Northern Europe"))
    by (vm_compute; left; reflexivity).
  split; [exact M |]. split; [exact Hin |].
  exact (main_numeric_country numbered_files numbered_merged "Northern Europe"
           (Float.of_Z 404) ["404"] M Hin).
Defined.

Lemma main_report_witness :
  merge_data sample_files country_file population_file species_file
  = Ok sample_merged /\
  join_names (countries_in sample_merged "Northern Europe") = inl ["Aland"; "Eire"] /\
  list_mem (Str "Aland") (countries_in sample_merged "Northern Europe") = true /\
  calculate_population_change sample_merged (Str "Aland") = Ok aland_stats /\
  calculate_species_statistics sample_merged "Northern Europe" = Ok sample_stats /\
  run_main sample_files ["Northern Europe"; "Aland"] =
  ({| stdin := [];
      stdout := (sub_region_prompt
                 :: (countries_line "Northern Europe" ["Aland"; "Eire"] ++ newline)%string
                 :: country_prompt
                 :: printed (report_lines (change aland_stats)
                                          (avg_population aland_stats)
                                          (density aland_stats) sample_stats))%list |},
   inl tt) /\
  map country sample_stats = countries_in sample_merged "Northern Europe".
Proof.
  assert (M : merge_data sample_files country_file population_file species_file
              = Ok sample_merged) by (vm_compute; reflexivity).
  assert (J : join_names (countries_in sample_merged "Northern Europe")
              = inl ["Aland"; "Eire"]) by (vm_compute; reflexivity).
  assert (L : list_mem (Str "Aland") (countries_in sample_merged "Northern Europe")
              = true) by (vm_compute; reflexivity).
  assert (P : calculate_population_change sample_merged (Str "Aland")
              = Ok aland_stats) by (vm_compute; reflexivity).
  assert (S : calculate_species_statistics sample_merged "Northern Europe"
              = Ok sample_stats) by (vm_compute; reflexivity).
  split; [exact M |]. split; [exact J |]. split; [exact L |].
  split; [exact P |]. split; [exact S |].
  exact (main_report sample_files sample_merged "Northern Europe" "Aland"
           ["Aland"; "Eire"] [] aland_stats sample_stats M J L P S).
Defined.

Lemma eire_cells_fit :
  Forall (fun cell => (String.length cell <= 15)%nat) (stat_cells eire_stat).
Proof.
  unfold stat_cells. repeat constructor; vm_compute; intros E; discriminate E.
Defined.

Lemma stat_line_width_witness :
  Forall (fun cell => (String.length cell <= 15)%nat) (stat_cells eire_stat) /\
  String.length (stat_line eire_stat) = 60%nat /\
  String.length headings = 60%nat.
Proof.
  split; [exact eire_cells_fit |].
  exact (stat_line_width eire_stat eire_cells_fit).
Defined.

(** The report of the sample for the answers Northern Europe and Aland. *)
Example sample_report :
  report_lines (change aland_stats) (avg_population aland_stats)
               (density aland_stats) sample_stats =
  [newline ++ "The change in population from 2000 to 2020 is: 50.0 people";
   "The average population from 2000 to 2020 is: 125 people";
   "The current population density is: 3.00 people per sq km";
   newline
   ++ "The average number of threatened species in each country of the sub-region:";
   "Country        Avg Species    Total Species  Species/Sq Km  ";
   "Aland          4.0            8              0.160000       ";
   "Eire           25.0           50             0.000711       "].
Proof. vm_compute. reflexivity. Qed.
